(** * Subscriber manager (backend/backend.py)

    A shallow embedding of [SubscriberManager] and of the [Subscriber]
    dataclass, with the properties of registration, verification,
    statistics and persistence.

    Python values are dynamically typed: a record read back from the
    backing file carries whatever JSON values the file holds, so the
    fields of a [Subscriber] are Python objects, not Rocq strings and
    booleans.  Numbers are integers; floating point values are left out.
    [str.lower] and [str.strip] are taken from the environment, like
    the validator, the digest, the clock, the [json] module and the
    verdict of the system on a write. *)

From Stdlib Require Import ZArith Ascii String.
From stdpp Require Import base strings list gmap pretty.

Open Scope Z_scope.
Open Scope string_scope.
Open Scope list_scope.

(** ** Python objects *)

#[local] Set Warnings "-register-all".

Inductive pyobj : Type :=
| PyNone
| PyBool (b : bool)
| PyInt (n : Z)
| PyStr (s : string)
| PyList (l : list pyobj)
| PyDict (d : list (string * pyobj))
| PyTuple (l : list pyobj).

(** Truth value of an object, as [not x] and [x or y] test it. *)
Definition truthy (v : pyobj) : bool :=
  match v with
  | PyNone => false
  | PyBool b => b
  | PyInt n => negb (Z.eqb n 0)
  | PyStr s => negb (bool_decide (s = ""))
  | PyList l => negb (bool_decide (length l = 0%nat))
  | PyDict d => negb (bool_decide (length d = 0%nat))
  | PyTuple l => negb (bool_decide (length l = 0%nat))
  end.

(** [a or b] *)
Definition py_or (a b : pyobj) : pyobj := if truthy a then a else b.

(** [v == s] for a string [s]: only a string equals a string. *)
Definition py_eq_str (v : pyobj) (s : string) : bool :=
  match v with
  | PyStr s' => bool_decide (s' = s)
  | _ => false
  end.

#[global] Instance pyobj_is_str_dec (v : pyobj) (t : string) :
  Decision (v = PyStr t).
Proof.
  destruct v as [| | |s| | |]; try (right; discriminate).
  destruct (decide (s = t)); [left; congruence|right; congruence].
Defined.

#[global] Instance pyobj_is_bool_dec (v : pyobj) (b : bool) :
  Decision (v = PyBool b).
Proof.
  destruct v as [|b'| | | | |]; try (right; discriminate).
  destruct (decide (b' = b)); [left; congruence|right; congruence].
Defined.

(** Folding the ASCII capitals, for the sample environment. *)
Definition ascii_lower (c : ascii) : ascii :=
  let n := nat_of_ascii c in
  if ((65 <=? n) && (n <=? 90))%nat then ascii_of_nat (n + 32) else c.

Fixpoint lower_ascii (s : string) : string :=
  match s with
  | EmptyString => EmptyString
  | String c s' => String (ascii_lower c) (lower_ascii s')
  end.

(** Removing ASCII white space at both ends, for the sample
    environment. *)
Definition is_space (c : ascii) : bool :=
  let n := nat_of_ascii c in
  (((9 <=? n) && (n <=? 13)) || ((28 <=? n) && (n <=? 32)))%nat.

Fixpoint lstrip_ascii (s : string) : string :=
  match s with
  | EmptyString => EmptyString
  | String c s' => if is_space c then lstrip_ascii s' else s
  end.

Fixpoint rstrip_ascii (s : string) : string :=
  match s with
  | EmptyString => EmptyString
  | String c s' =>
      match rstrip_ascii s' with
      | EmptyString => if is_space c then EmptyString else String c EmptyString
      | r => String c r
      end
  end.

Definition strip_ascii (s : string) : string := rstrip_ascii (lstrip_ascii s).

(** ** Dictionaries

    A Python [dict] keeps its keys in insertion order and
    [verify_subscriber] depends on that order, so a dictionary is the
    list of its items.  A well-formed dictionary has no repeated key. *)

Abbreviation dict V := (list (string * V)).

Definition dict_keys {V} (d : dict V) : list string := d.*1.
Definition dict_values {V} (d : dict V) : list V := d.*2.

(** [k in d] *)
Definition dict_contains {V} (k : string) (d : dict V) : bool :=
  bool_decide (k ∈ dict_keys d).

(** [d.get(k)] *)
Fixpoint dict_get {V} (k : string) (d : dict V) : option V :=
  match d with
  | [] => None
  | (k', v) :: d' => if bool_decide (k' = k) then Some v else dict_get k d'
  end.

(** [d[k] = v]: an existing key keeps its place, a new one goes last. *)
Fixpoint dict_set {V} (k : string) (v : V) (d : dict V) : dict V :=
  match d with
  | [] => [(k, v)]
  | (k', v') :: d' =>
      if bool_decide (k' = k) then (k', v) :: d'
      else (k', v') :: dict_set k v d'
  end.

(** [{k: v for k, v in items}] *)
Definition dict_comprehension {V} (items : list (string * V)) : dict V :=
  fold_left (λ d kv, dict_set kv.1 kv.2 d) items [].

Definition dict_wf {V} (d : dict V) : Prop := NoDup (dict_keys d).

(** ** The [Subscriber] dataclass *)

Record Subscriber : Type := mkSubscriber {
  email : pyobj;
  joined_date : pyobj;
  status : pyobj;
  verification_token : pyobj;
  verified : pyobj;
  last_updated : pyobj;
  metadata : pyobj
}.

Definition field_names : list string :=
  ["email"; "joined_date"; "status"; "verification_token"; "verified";
   "last_updated"; "metadata"].

(** [dataclasses.asdict] *)
Definition asdict (s : Subscriber) : pyobj :=
  PyDict [("email", email s); ("joined_date", joined_date s);
          ("status", status s);
          ("verification_token", verification_token s);
          ("verified", verified s); ("last_updated", last_updated s);
          ("metadata", metadata s)].

(** The [verified] field is annotated [bool]; nothing checks the
    annotation at run time. *)
Definition is_bool (v : pyobj) : bool :=
  match v with PyBool _ => true | _ => false end.

(** Attribute assignments of [verify_subscriber]. *)
Definition set_verified (v : pyobj) (s : Subscriber) : Subscriber :=
  mkSubscriber (email s) (joined_date s) (status s) (verification_token s)
               v (last_updated s) (metadata s).
Definition set_status (v : pyobj) (s : Subscriber) : Subscriber :=
  mkSubscriber (email s) (joined_date s) v (verification_token s)
               (verified s) (last_updated s) (metadata s).
Definition set_last_updated (v : pyobj) (s : Subscriber) : Subscriber :=
  mkSubscriber (email s) (joined_date s) (status s) (verification_token s)
               (verified s) v (metadata s).

(** ** Exceptions and results *)

Inductive Exn : Type :=
| OSError          (* open() failed *)
| JSONDecodeError  (* json.load rejected the text *)
| AttributeError   (* data.items() on something that is no dict *)
| TypeError.       (* the dataclass constructor got wrong arguments *)

Inductive result (A : Type) : Type :=
| Ok (a : A)
| Raise (e : Exn).
Arguments Ok {A} a.
Arguments Raise {A} e.

(** Running [f] on the value of [r], unless [r] raised. *)
Definition and_then {A B} (r : result A) (f : A → result B) : result B :=
  match r with Ok a => f a | Raise e => Raise e end.

Fixpoint result_map {A B} (f : A → result B) (l : list A) : result (list B) :=
  match l with
  | [] => Ok []
  | a :: l' =>
      and_then (f a) (λ b, and_then (result_map f l') (λ bs, Ok (b :: bs)))
  end.

(** The constructor call of [load_subscribers], which unpacks [sub_data]
    into keyword arguments: the argument must be a mapping, every key
    must name a field and every field must be given. *)
Definition Subscriber_init (sub_data : pyobj) : result Subscriber :=
  match sub_data with
  | PyDict kw =>
      if forallb (λ k, bool_decide (k ∈ field_names)) (dict_keys kw) then
        match dict_get "email" kw, dict_get "joined_date" kw,
              dict_get "status" kw, dict_get "verification_token" kw,
              dict_get "verified" kw, dict_get "last_updated" kw,
              dict_get "metadata" kw with
        | Some e, Some j, Some s, Some t, Some v, Some l, Some m =>
            Ok (mkSubscriber e j s t v l m)
        | _, _, _, _, _, _, _ => Raise TypeError
        end
      else Raise TypeError
  | _ => Raise TypeError
  end.

(** ** The world: files, log and clock *)

Record File : Type := mkFile {
  can_read : bool;
  can_write : bool;
  content : string
}.

Inductive Event : Type :=
| Wrote (path text : string)        (* open(path, "w") and json.dump *)
| WriteRefused (path : string)      (* open(path, "w") raised *)
| LoggedError (what : string) (e : Exn).  (* logging.error *)

Definition is_save (ev : Event) : bool :=
  match ev with
  | Wrote _ _ | WriteRefused _ => true
  | LoggedError _ _ => false
  end.

(** Number of times the backing file was opened for writing. *)
Definition saves (tr : list Event) : nat := length (List.filter is_save tr).

(** The manager object together with the world it runs in. *)
Record State : Type := mkState {
  storage_file : string;            (* self.storage_file *)
  subscribers : dict Subscriber;    (* self.subscribers *)
  disk : gmap string File;
  trace : list Event;
  ticks : nat                       (* calls of datetime.now() so far *)
}.

Definition M (A : Type) : Type := State → A * State.

Definition ret {A} (a : A) : M A := λ st, (a, st).
Definition bind {A B} (m : M A) (f : A → M B) : M B := λ st,
  let (a, st') := m st in f a st'.

Declare Scope M_scope.
Delimit Scope M_scope with M.
Notation "x ← y ; z" := (bind y (λ x : _, z)) : M_scope.
Notation "x ;; z" := (bind x (λ _, z)) : M_scope.

Definition get_self : M State := λ st, (st, st).

Definition set_subscribers (d : dict Subscriber) : M unit := λ st,
  (tt, mkState (storage_file st) d (disk st) (trace st) (ticks st)).

Definition set_storage_file (p : string) : M unit := λ st,
  (tt, mkState p (subscribers st) (disk st) (trace st) (ticks st)).

Definition emit (ev : Event) : M unit := λ st,
  (tt, mkState (storage_file st) (subscribers st) (disk st)
               (trace st ++ [ev]) (ticks st)).

Definition logging_error (what : string) (e : Exn) : M unit :=
  emit (LoggedError what e).

(** [os.path.exists] *)
Definition path_exists (p : string) : M bool := λ st,
  (bool_decide (is_Some (disk st !! p)), st).

(** [open(p, "r")] and reading the whole file. *)
Definition read_file (p : string) : M (result string) := λ st,
  match disk st !! p with
  | Some f => if can_read f then (Ok (content f), st) else (Raise OSError, st)
  | None => (Raise OSError, st)
  end.

(** ** What the program takes from libraries and from the system

    [validate_email] is the validator of the [email_validator] package:
    it yields the normalized address or an error message.
    [sha256_hexdigest s] is [hashlib.sha256(s.encode()).hexdigest()].
    [isoformat_now n] is the text of [datetime.now().isoformat()] at the
    [n]-th reading of the clock.  [json_dump] and [json_load] are the
    [json] module; [json_load] yields [None] where it raises.  [lower]
    is [str.lower] and [strip] is [str.strip].  [os_write n p text] is
    what the system does when, [n] events into the run, the program
    opens [p] for writing and dumps [text]: all of it is written, or
    the write raises after a part of it, or [open] itself raises. *)

Inductive validation : Type :=
| ValidatedEmail (normalized : string)
| EmailNotValidError (msg : string).

Inductive write_outcome : Type :=
| Written
| Cut (part : string)
| Refused.

Class Externals : Type := {
  validate_email : string → validation;
  sha256_hexdigest : string → string;
  isoformat_now : nat → string;
  json_dump : pyobj → string;
  json_load : string → option pyobj;
  lower : string → string;
  strip : string → string;
  os_write : nat → string → string → write_outcome
}.

Abbreviation Response := (pyobj * Z)%type.

Section SubscriberManager.
Context `{Externals}.
#[local] Open Scope M_scope.

(** [open(p, "w")] followed by [json.dump]: opening truncates the file,
    or creates it; a write that raises leaves the part written. *)
Definition write_file (p text : string) : M (result unit) := λ st,
  let put r written :=
    mkState (storage_file st) (subscribers st)
            (<[p := mkFile r true written]> (disk st))
            (trace st ++ [Wrote p written]) (ticks st) in
  let attempt r :=
    match os_write (length (trace st)) p text with
    | Written => (Ok tt, put r text)
    | Cut part => (Raise OSError, put r part)
    | Refused => (Raise OSError, (emit (WriteRefused p) st).2)
    end in
  match disk st !! p with
  | None => attempt true
  | Some f =>
      if can_write f then attempt (can_read f)
      else (Raise OSError, (emit (WriteRefused p) st).2)
  end.

(** [datetime.now().isoformat()] *)
Definition now : M string := λ st,
  (isoformat_now (ticks st),
   mkState (storage_file st) (subscribers st) (disk st) (trace st)
           (S (ticks st))).

Definition json_decode (text : string) : result pyobj :=
  match json_load text with
  | Some data => Ok data
  | None => Raise JSONDecodeError
  end.

Definition parse_item (item : string * pyobj) : result (string * Subscriber) :=
  and_then (Subscriber_init item.2) (λ subscriber, Ok (item.1, subscriber)).

(** The comprehension of [load_subscribers] over [data.items()]. *)
Definition parse_subscribers (data : pyobj) : result (dict Subscriber) :=
  match data with
  | PyDict items =>
      and_then (result_map parse_item items)
               (λ parsed, Ok (dict_comprehension parsed))
  | _ => Raise AttributeError
  end.

Definition load_subscribers : M unit :=
  self ← get_self;
  found ← path_exists (storage_file self);
  if (found : bool) then
    text ← read_file (storage_file self);
    match and_then (and_then text json_decode) parse_subscribers with
    | Ok loaded => set_subscribers loaded
    | Raise e =>
        logging_error "Error loading subscribers" e;;
        set_subscribers []
    end
  else ret tt.

Definition SubscriberManager_init (path : string) : M unit :=
  set_storage_file path;;
  set_subscribers [];;
  load_subscribers.

(** The document [save_subscribers] writes. *)
Definition subscribers_data (d : dict Subscriber) : pyobj :=
  PyDict (dict_comprehension ((λ item, (item.1, asdict item.2)) <$> d)).

Definition save_subscribers : M unit :=
  self ← get_self;
  let data := subscribers_data (subscribers self) in
  written ← write_file (storage_file self) (json_dump data);
  match written with
  | Ok _ => ret tt
  | Raise e => logging_error "Error saving subscribers" e
  end.

Definition add_subscriber (email : string) (metadata : pyobj) : M Response :=
  match validate_email email with
  | EmailNotValidError e => ret (PyDict [("error", PyStr e)], 400)
  | ValidatedEmail email =>
      self ← get_self;
      if dict_contains (lower email) (subscribers self) then
        ret (PyDict [("error", PyStr "Email already exists")], 409)
      else
        t0 ← now;
        let verification_token := sha256_hexdigest (email +:+ t0) in
        t1 ← now;
        t2 ← now;
        let subscriber :=
          mkSubscriber (PyStr (lower email)) (PyStr t1) (PyStr "pending")
                       (PyStr verification_token) (PyBool false) (PyStr t2)
                       (py_or metadata (PyDict [])) in
        self ← get_self;
        set_subscribers (dict_set (lower email) subscriber (subscribers self));;
        save_subscribers;;
        ret (PyDict [("message", PyStr "Subscriber added successfully")], 201)
  end.

(** An attribute assignment on the object held at place [i] of the
    index: the object is shared with the dictionary, so the dictionary
    sees the change. *)
Definition mutate (i : nat) (f : Subscriber → Subscriber) : M unit := λ st,
  set_subscribers (alter (λ item, (item.1, f item.2)) i (subscribers st)) st.

(** The loop of [verify_subscriber]; [i] is the place of the head of
    [items] in the index. *)
Fixpoint verify_loop (token : string) (i : nat) (items : dict Subscriber)
  : M Response :=
  match items with
  | [] => ret (PyDict [("error", PyStr "Invalid verification token")], 400)
  | (_, subscriber) :: rest =>
      if py_eq_str (verification_token subscriber) token then
        mutate i (set_verified (PyBool true));;
        mutate i (set_status (PyStr "active"));;
        t ← now;
        mutate i (set_last_updated (PyStr t));;
        save_subscribers;;
        ret (PyDict [("message", PyStr "Email verified successfully")], 200)
      else verify_loop token (S i) rest
  end.

Definition verify_subscriber (token : string) : M Response :=
  self ← get_self;
  verify_loop token 0 (subscribers self).

Definition count_active (d : dict Subscriber) : nat :=
  length (List.filter (λ s, py_eq_str (status s) "active") (dict_values d)).

Definition count_unverified (d : dict Subscriber) : nat :=
  length (List.filter (λ s, negb (truthy (verified s))) (dict_values d)).

Definition get_subscriber_stats : M pyobj :=
  self ← get_self;
  let total := length (subscribers self) in
  let active := count_active (subscribers self) in
  let unverified := count_unverified (subscribers self) in
  t ← now;
  ret (PyDict [("total", PyInt (Z.of_nat total));
                ("active", PyInt (Z.of_nat active));
                ("unverified", PyInt (Z.of_nat unverified));
                ("last_updated", PyStr t)]).

(** ** Vocabulary of the properties *)

(** The record [add_subscriber] builds when the clock has been read [n]
    times: the token takes reading [n], [joined_date] the next one and
    [last_updated] the one after. *)
Definition new_subscriber (norm : string) (metadata : pyobj) (n : nat)
  : Subscriber :=
  mkSubscriber (PyStr (lower norm))
               (PyStr (isoformat_now (S n)))
               (PyStr "pending")
               (PyStr (sha256_hexdigest (norm +:+ isoformat_now n)))
               (PyBool false)
               (PyStr (isoformat_now (S (S n))))
               (py_or metadata (PyDict [])).

(** The JSON document of an index: under each key, an object with the
    seven fields of the record. *)
Definition index_document (d : dict Subscriber) : pyobj :=
  PyDict ((λ item,
             (item.1,
              PyDict [("email", email item.2);
                      ("joined_date", joined_date item.2);
                      ("status", status item.2);
                      ("verification_token", verification_token item.2);
                      ("verified", verified item.2);
                      ("last_updated", last_updated item.2);
                      ("metadata", metadata item.2)])) <$> d).

(** No record of [items] holds [token]. *)
Definition token_free (token : string) (items : dict Subscriber) : Prop :=
  Forall (λ item, py_eq_str (verification_token item.2) token = false) items.

(** The three assignments of [verify_subscriber], made at time [t]. *)
Definition verified_at (t : string) (s : Subscriber) : Subscriber :=
  set_last_updated (PyStr t) (set_status (PyStr "active")
                                         (set_verified (PyBool true) s)).

(** A field of the report of [get_subscriber_stats]. *)
Definition report_field (name : string) (report : pyobj) : option pyobj :=
  match report with
  | PyDict d => dict_get name d
  | _ => None
  end.

(** A JSON value from which the dataclass constructor builds a record:
    an object whose keys are the seven field names. *)
Definition record_shaped (v : pyobj) : Prop :=
  ∃ kw, v = PyDict kw ∧ ∀ k, k ∈ dict_keys kw ↔ k ∈ field_names.

(** Why a backing file that exists cannot be loaded, with the exception
    the attempt ends in. *)
Inductive corrupt (f : File) : Exn → Prop :=
| corrupt_unreadable :
    can_read f = false → corrupt f OSError
| corrupt_no_json :
    can_read f = true → json_load (content f) = None →
    corrupt f JSONDecodeError
| corrupt_no_object data :
    can_read f = true → json_load (content f) = Some data →
    (∀ items, data ≠ PyDict items) →
    corrupt f AttributeError
| corrupt_bad_record items :
    can_read f = true → json_load (content f) = Some (PyDict items) →
    Exists (λ item, ¬ record_shaped item.2) items →
    corrupt f TypeError.

(** The two stages of the life of a record. *)
Definition lifecycle (s : Subscriber) : Prop :=
  (status s = PyStr "pending" ∧ verified s = PyBool false) ∨
  (status s = PyStr "active" ∧ verified s = PyBool true).

(** The states the public operations lead to from an empty index. *)
Inductive reachable : State → Prop :=
| reachable_empty st :
    subscribers st = [] → reachable st
| reachable_add st addr metadata :
    reachable st → reachable (add_subscriber addr metadata st).2
| reachable_verify st token :
    reachable st → reachable (verify_subscriber token st).2.

End SubscriberManager.

(** ** A small environment to run the program in

    A validator that, like the package, folds the case of the domain
    and keeps the local part; a stand-in digest; a clock that moves at
    every reading; a JSON writer and reader for compact documents
    whose strings hold no quote and no backslash, which like the module
    write a tuple as a list; ASCII case folding and stripping; and a
    system on which every write goes through. *)

Module Sample.

Definition dquote : ascii := ascii_of_nat 34.

Fixpoint split_at_sign (s : string) : option (string * string) :=
  match s with
  | EmptyString => None
  | String c s' =>
      if Ascii.eqb c "@"%char then Some (EmptyString, s')
      else match split_at_sign s' with
           | Some (l, d) => Some (String c l, d)
           | None => None
           end
  end.

Definition validate (s : string) : validation :=
  match split_at_sign s with
  | Some (l, d) =>
      if bool_decide (l = "") || bool_decide (d = "") then
        EmailNotValidError "The email address is not valid."
      else ValidatedEmail (l +:+ "@" +:+ lower_ascii d)
  | None => EmailNotValidError "The email address is not valid."
  end.

Definition digest (s : string) : string := "sha256:" +:+ s.

Definition clock (n : nat) : string :=
  "2024-01-01T00:00:00." +:+ pretty n.

Definition join (sep : string) (l : list string) : string :=
  match l with
  | [] => ""
  | x :: l' => fold_left (λ acc y, acc +:+ sep +:+ y) l' x
  end.

Definition quoted (s : string) : string :=
  String dquote (s +:+ String dquote EmptyString).

Fixpoint write (v : pyobj) : string :=
  match v with
  | PyNone => "null"
  | PyBool true => "true"
  | PyBool false => "false"
  | PyInt n => pretty n
  | PyStr s => quoted s
  | PyList l | PyTuple l => "[" +:+ join "," (List.map write l) +:+ "]"
  | PyDict d =>
      "{" +:+ join "," (List.map (λ kv, match kv with
                                         | (k, x) => quoted k +:+ ":" +:+ write x
                                         end) d) +:+ "}"
  end.

Fixpoint strip_prefix (p s : string) : option string :=
  match p, s with
  | EmptyString, _ => Some s
  | String a p', String b s' =>
      if Ascii.eqb a b then strip_prefix p' s' else None
  | _, _ => None
  end.

(** The text up to the closing quote, and what follows it. *)
Fixpoint read_string (s : string) : option (string * string) :=
  match s with
  | EmptyString => None
  | String c s' =>
      if Ascii.eqb c dquote then Some (EmptyString, s')
      else match read_string s' with
           | Some (t, r) => Some (String c t, r)
           | None => None
           end
  end.

Definition digit (c : ascii) : option Z :=
  let n := nat_of_ascii c in
  if ((48 <=? n) && (n <=? 57))%nat then Some (Z.of_nat (n - 48)) else None.

Fixpoint read_digits (acc : Z) (s : string) : Z * string :=
  match s with
  | EmptyString => (acc, s)
  | String c s' =>
      match digit c with
      | Some d => read_digits (10 * acc + d) s'
      | None => (acc, s)
      end
  end.

Fixpoint read_value (fuel : nat) (s : string) : option (pyobj * string) :=
  match fuel with
  | O => None
  | S fuel =>
      let fix read_elements (n : nat) (s : string)
        : option (list pyobj * string) :=
        match n with
        | O => None
        | S n =>
            match read_value fuel s with
            | Some (v, String c r) =>
                if Ascii.eqb c "]"%char then Some ([v], r)
                else if Ascii.eqb c ","%char then
                  match read_elements n r with
                  | Some (vs, r') => Some (v :: vs, r')
                  | None => None
                  end
                else None
            | _ => None
            end
        end in
      let fix read_members (n : nat) (s : string)
        : option (list (string * pyobj) * string) :=
        match n with
        | O => None
        | S n =>
            match s with
            | String q s1 =>
                if Ascii.eqb q dquote then
                  match read_string s1 with
                  | Some (k, String colon s2) =>
                      if Ascii.eqb colon ":"%char then
                        match read_value fuel s2 with
                        | Some (v, String c r) =>
                            if Ascii.eqb c "}"%char then Some ([(k, v)], r)
                            else if Ascii.eqb c ","%char then
                              match read_members n r with
                              | Some (kvs, r') => Some ((k, v) :: kvs, r')
                              | None => None
                              end
                            else None
                        | _ => None
                        end
                      else None
                  | _ => None
                  end
                else None
            | EmptyString => None
            end
        end in
      match s with
      | EmptyString => None
      | String c r =>
          if Ascii.eqb c dquote then
            match read_string r with
            | Some (t, r') => Some (PyStr t, r')
            | None => None
            end
          else if Ascii.eqb c "["%char then
            match r with
            | String c' r' =>
                if Ascii.eqb c' "]"%char then Some (PyList [], r')
                else match read_elements (String.length r) r with
                     | Some (vs, r'') => Some (PyList vs, r'')
                     | None => None
                     end
            | EmptyString => None
            end
          else if Ascii.eqb c "{"%char then
            match r with
            | String c' r' =>
                if Ascii.eqb c' "}"%char then Some (PyDict [], r')
                else match read_members (String.length r) r with
                     | Some (kvs, r'') => Some (PyDict kvs, r'')
                     | None => None
                     end
            | EmptyString => None
            end
          else if Ascii.eqb c "-"%char then
            match r with
            | String c' _ =>
                match digit c' with
                | Some _ => let (n, r') := read_digits 0 r in
                            Some (PyInt (- n), r')
                | None => None
                end
            | EmptyString => None
            end
          else match digit c with
               | Some _ => let (n, r') := read_digits 0 s in
                           Some (PyInt n, r')
               | None =>
                   match strip_prefix "null" s, strip_prefix "true" s,
                         strip_prefix "false" s with
                   | Some r', _, _ => Some (PyNone, r')
                   | _, Some r', _ => Some (PyBool true, r')
                   | _, _, Some r' => Some (PyBool false, r')
                   | _, _, _ => None
                   end
               end
      end
  end.

Definition read (s : string) : option pyobj :=
  match read_value (String.length s) s with
  | Some (v, EmptyString) => Some v
  | _ => None
  end.

(** The module-level constant of the program. *)
Definition EMAILS_FILE : string := "subscribers.json".

(** Before the manager is built: nothing on disk, nothing logged. *)
Definition boot : State := mkState "" [] ∅ [] 0.

Definition env : Externals :=
  {| validate_email := validate;
     sha256_hexdigest := digest;
     isoformat_now := clock;
     json_dump := write;
     json_load := read;
     lower := lower_ascii;
     strip := strip_ascii;
     os_write := λ _ _ _, Written |}.

(** The manager as the program builds it at start-up. *)
Definition started : State :=
  (SubscriberManager_init (H:=env) EMAILS_FILE boot).2.

(** After one registration. *)
Definition registered : State :=
  (add_subscriber (H:=env) "A@Example.com" PyNone started).2.

(** The token of that registration, and the record it made. *)
Definition token : string := digest ("A@example.com" +:+ clock 0).

Definition pending_record : Subscriber :=
  mkSubscriber (PyStr "a@example.com") (PyStr (clock 1)) (PyStr "pending")
               (PyStr token) (PyBool false) (PyStr (clock 2)) (PyDict []).

(** After the verification of that registration. *)
Definition activated : State :=
  (verify_subscriber (H:=env) token registered).2.

(** An index in which the second and the third record hold one token. *)
Definition member (addr tok : string) : Subscriber :=
  mkSubscriber (PyStr addr) (PyStr (clock 0)) (PyStr "pending") (PyStr tok)
               (PyBool false) (PyStr (clock 0)) (PyDict []).

Definition twins : State :=
  mkState EMAILS_FILE
          [("x@example.com", member "x@example.com" "t0");
           ("y@example.com", member "y@example.com" "t1");
           ("z@example.com", member "z@example.com" "t1")]
          ∅ [] 1.

(** A backing file that is no JSON, and one whose only value lacks six
    of the seven fields. *)
Definition garbled : File := mkFile true true "subscribers".

Definition truncated : File :=
  mkFile true true
         (write (PyDict [("x@example.com",
                          PyDict [("email", PyStr "x@example.com")])])).

Definition on_disk (f : File) : State :=
  mkState "" [("x@example.com", member "x@example.com" "t0")]
          {[ EMAILS_FILE := f ]} [] 0.

End Sample.

(** ** What a verification may do to a record *)

Definition verify_related (old new : string * Subscriber) : Prop :=
  new.1 = old.1 ∧
  email new.2 = email old.2 ∧
  joined_date new.2 = joined_date old.2 ∧
  verification_token new.2 = verification_token old.2 ∧
  metadata new.2 = metadata old.2 ∧
  (new.2 = old.2 ∨
   (status new.2 = PyStr "active" ∧ verified new.2 = PyBool true)).

(** ** The routes

    The handlers of the Flask application, on the body that
    [request.get_json()] returned; [jsonify] is left out, so a handler
    answers what the manager answers.  A handler that raises answers
    with the exception. *)

(** [d.get(k, fallback)] *)
Definition dict_get_default {V} (k : string) (fallback : V) (d : dict V) : V :=
  default fallback (dict_get k d).

Section Routes.
Context `{Externals}.
#[local] Open Scope M_scope.

(** The handler of POST /subscribe. *)
Definition subscribe (body : pyobj) : M (result Response) :=
  match body with
  | PyDict data =>
      match dict_get_default "email" (PyStr "") data with
      | PyStr email =>
          let email := strip email in
          let metadata := dict_get_default "metadata" (PyDict []) data in
          response ← add_subscriber email metadata;
          ret (Ok response)
      | _ => ret (Raise AttributeError)
      end
  | _ => ret (Raise AttributeError)
  end.

(** The handler of GET /verify/<token>. *)
Definition verify_email (token : string) : M Response :=
  verify_subscriber token.

(** The handler of GET /subscribers/stats. *)
Definition get_stats : M pyobj := get_subscriber_stats.

End Routes.

(** ** More states of the sample environment *)

Module Cases.

(** A backing file that may be read and not written. *)
Definition read_only : File := mkFile true false "{}".

Definition locked : State :=
  mkState Sample.EMAILS_FILE [] {[ Sample.EMAILS_FILE := read_only ]} [] 0.

(** A backing file written by hand: the fields are out of order and the
    flag is no boolean. *)
Definition by_hand_items : dict pyobj :=
  [("x@example.com",
    PyDict [("metadata", PyDict []);
            ("verified", PyNone);
            ("email", PyStr "x@example.com");
            ("status", PyStr "pending");
            ("joined_date", PyStr (Sample.clock 0));
            ("last_updated", PyStr (Sample.clock 0));
            ("verification_token", PyStr "t0")])].

Definition by_hand : File :=
  mkFile true true (Sample.write (PyDict by_hand_items)).

(** An index whose record has a tuple among its metadata. *)
Definition tagged : State :=
  mkState Sample.EMAILS_FILE
          [("x@example.com",
            mkSubscriber (PyStr "x@example.com") (PyStr (Sample.clock 0))
                         (PyStr "pending") (PyStr "t0") (PyBool false)
                         (PyStr (Sample.clock 0))
                         (PyDict [("tags",
                                   PyTuple [PyStr "a"; PyStr "b"])]))]
          ∅ [] 1.

(** A process that has just started: no manager yet, on the disk and
    with the trace that [st] leaves. *)
Definition restarted_on (st : State) : State :=
  mkState "" [] (disk st) (trace st) (ticks st).

Definition hand_written : State :=
  mkState Sample.EMAILS_FILE [] {[ Sample.EMAILS_FILE := by_hand ]} [] 0.

(** The entries of two requests for one address: padded with blanks and
    with a null metadata entry, and plain. *)
Definition padded_entries : dict pyobj :=
  [("email", PyStr "  A@Example.com "); ("metadata", PyNone)].

Definition plain_entries : dict pyobj :=
  [("email", PyStr "A@Example.com")].

End Cases.

(** * Properties *)

(** ** Strings and dictionaries *)

Lemma ascii_lower_idempotent (c : ascii) :
  ascii_lower (ascii_lower c) = ascii_lower c.
Proof. destruct c as [[] [] [] [] [] [] [] []]; reflexivity. Qed.

Lemma lower_ascii_idempotent (s : string) :
  lower_ascii (lower_ascii s) = lower_ascii s.
Proof.
  induction s as [|c s IH]; simpl; [reflexivity|].
  by rewrite ascii_lower_idempotent, IH.
Qed.

Section Dict.
Context {V : Type}.
Implicit Types (d : dict V) (k : string) (v : V).

Lemma dict_contains_true k d : dict_contains k d = true ↔ k ∈ dict_keys d.
Proof. unfold dict_contains. by rewrite bool_decide_eq_true. Qed.

Lemma dict_contains_false k d : dict_contains k d = false ↔ k ∉ dict_keys d.
Proof. unfold dict_contains. by rewrite bool_decide_eq_false. Qed.

Lemma dict_set_fresh k v d : k ∉ dict_keys d → dict_set k v d = d ++ [(k, v)].
Proof.
  unfold dict_keys. induction d as [|[k' v'] d IH]; simpl; [done|].
  intros Hk. apply not_elem_of_cons in Hk as [Hne Hk].
  rewrite bool_decide_eq_false_2 by done. by rewrite IH.
Qed.

Lemma dict_set_keys_fresh k v d :
  k ∉ dict_keys d → dict_keys (dict_set k v d) = dict_keys d ++ [k].
Proof.
  intros Hk. rewrite dict_set_fresh by done.
  unfold dict_keys. by rewrite fmap_app.
Qed.

Lemma dict_set_wf k v d : dict_wf d → k ∉ dict_keys d → dict_wf (dict_set k v d).
Proof.
  unfold dict_wf. intros Hwf Hk. rewrite dict_set_keys_fresh by done.
  apply NoDup_app. split_and!; [done| |apply NoDup_singleton].
  intros x Hx Hx'. apply list_elem_of_singleton in Hx'. by subst.
Qed.

Lemma dict_get_app_fresh k v d :
  k ∉ dict_keys d → dict_get k (d ++ [(k, v)]) = Some v.
Proof.
  unfold dict_keys. induction d as [|[k' v'] d IH]; simpl.
  - intros _. by rewrite bool_decide_eq_true_2.
  - intros Hk. apply not_elem_of_cons in Hk as [Hne Hk].
    rewrite bool_decide_eq_false_2 by done. by apply IH.
Qed.

Lemma dict_comprehension_snoc (items : list (string * V)) k v :
  dict_comprehension (items ++ [(k, v)]) = dict_set k v (dict_comprehension items).
Proof. unfold dict_comprehension. by rewrite fold_left_app. Qed.

(** Over items with distinct keys the comprehension is the items. *)
Lemma dict_comprehension_wf (items : list (string * V)) :
  dict_wf items → dict_comprehension items = items.
Proof.
  induction items as [|[k v] items IH] using rev_ind; [done|].
  unfold dict_wf, dict_keys. rewrite fmap_app. simpl.
  intros Hnd. apply NoDup_app in Hnd as (Hnd & Hk & _).
  rewrite dict_comprehension_snoc, IH by done.
  apply dict_set_fresh. intros Hin. apply (Hk k Hin). apply list_elem_of_singleton. done.
Qed.

Lemma dict_filter_absent k d :
  k ∉ dict_keys d → filter (λ item, item.1 = k) d = [].
Proof.
  unfold dict_keys. induction d as [|[k' v'] d IH]; simpl; [done|].
  intros Hk. apply not_elem_of_cons in Hk as [Hne Hk].
  rewrite filter_cons. simpl. rewrite decide_False by done. by apply IH.
Qed.

Lemma dict_get_is_Some k d : is_Some (dict_get k d) ↔ k ∈ dict_keys d.
Proof.
  unfold dict_keys. induction d as [|[k' v'] d IH]; simpl.
  - split; [by intros [? ?]|by intros ?%elem_of_nil].
  - rewrite elem_of_cons. destruct (decide (k' = k)) as [->|Hne].
    + rewrite bool_decide_eq_true_2 by done. split; [by left|by eexists].
    + rewrite bool_decide_eq_false_2 by done. rewrite IH.
      split; [by right|]. intros [?|?]; [congruence|done].
Qed.

(** A key of a well-formed dictionary heads exactly one item. *)
Lemma dict_wf_once k d :
  dict_wf d → k ∈ dict_keys d → length (filter (λ item, item.1 = k) d) = 1%nat.
Proof.
  unfold dict_wf, dict_keys. induction d as [|[k' v'] d IH]; simpl.
  - intros _ Hk. by apply elem_of_nil in Hk.
  - intros Hnd Hk. apply NoDup_cons in Hnd as [Hk' Hnd].
    rewrite filter_cons. simpl. destruct (decide (k' = k)) as [->|Hne].
    + simpl. by rewrite dict_filter_absent.
    + apply elem_of_cons in Hk as [?|Hk]; [congruence|]. by apply IH.
Qed.

Lemma dict_set_keys_present k v d :
  k ∈ dict_keys d → dict_keys (dict_set k v d) = dict_keys d.
Proof.
  unfold dict_keys. induction d as [|[k' v'] d IH]; simpl.
  - by intros ?%elem_of_nil.
  - intros Hk. destruct (decide (k' = k)) as [->|Hne].
    + by rewrite bool_decide_eq_true_2.
    + rewrite bool_decide_eq_false_2 by done. simpl. f_equal. apply IH.
      apply elem_of_cons in Hk as [?|?]; [congruence|done].
Qed.

(** Assignment keeps a dictionary well-formed, whatever the key. *)
Lemma dict_set_wf_any k v d : dict_wf d → dict_wf (dict_set k v d).
Proof.
  intros Hwf. destruct (decide (k ∈ dict_keys d)) as [Hk|Hk].
  - unfold dict_wf. by rewrite dict_set_keys_present.
  - by apply dict_set_wf.
Qed.

(** A comprehension builds a well-formed dictionary. *)
Lemma dict_comprehension_is_wf (items : list (string * V)) :
  dict_wf (dict_comprehension items).
Proof.
  induction items as [|[k v] items IH] using rev_ind.
  - apply NoDup_nil_2.
  - rewrite dict_comprehension_snoc. by apply dict_set_wf_any.
Qed.

End Dict.

Section Properties.
Context `{Externals}.

(** ** Saving touches the disk and the trace only *)

Lemma save_subscribers_frame (st : State) :
  storage_file (save_subscribers st).2 = storage_file st ∧
  subscribers (save_subscribers st).2 = subscribers st ∧
  ticks (save_subscribers st).2 = ticks st.
Proof.
  unfold save_subscribers, bind, get_self, write_file, logging_error, emit, ret.
  lazy beta iota zeta.
  destruct (disk st !! storage_file st) as [f|]; [destruct (can_write f)|];
    try destruct (os_write _ _ _); done.
Qed.

(** Every call of [save_subscribers] opens the backing file once. *)
Lemma save_subscribers_saves (st : State) :
  saves (trace (save_subscribers st).2) = S (saves (trace st)).
Proof.
  unfold save_subscribers, bind, get_self, write_file, logging_error, emit, ret, saves.
  lazy beta iota zeta.
  destruct (disk st !! storage_file st) as [f|]; [destruct (can_write f)|];
    try destruct (os_write _ _ _);
    simpl; rewrite ?List.filter_app, ?length_app; simpl; lia.
Qed.

(** ** What a save writes *)

Lemma asdict_keys (d : dict Subscriber) :
  dict_keys ((λ item, (item.1, asdict item.2)) <$> d) = dict_keys d.
Proof. unfold dict_keys. rewrite <-list_fmap_compose. done. Qed.

Lemma subscribers_data_wf (d : dict Subscriber) :
  dict_wf d →
  subscribers_data d = PyDict ((λ item, (item.1, asdict item.2)) <$> d).
Proof.
  intros Hwf. unfold subscribers_data. rewrite dict_comprehension_wf; [done|].
  unfold dict_wf. by rewrite asdict_keys.
Qed.

Lemma subscribers_data_document (d : dict Subscriber) :
  dict_wf d → subscribers_data d = index_document d.
Proof. apply subscribers_data_wf. Qed.

(** A save that goes through leaves the document of the whole index in
    the backing file, and the write in the trace. *)
Lemma save_subscribers_written (st : State) :
  dict_wf (subscribers st) →
  (∀ f, disk st !! storage_file st = Some f → can_write f = true) →
  os_write (length (trace st)) (storage_file st)
           (json_dump (index_document (subscribers st))) = Written →
  ∃ r,
    (∀ f, disk st !! storage_file st = Some f → r = can_read f) ∧
    (disk st !! storage_file st = None → r = true) ∧
    save_subscribers st =
      (tt, mkState (storage_file st) (subscribers st)
                   (<[storage_file st :=
                        mkFile r true
                               (json_dump (index_document (subscribers st)))]>
                      (disk st))
                   (trace st ++
                      [Wrote (storage_file st)
                             (json_dump (index_document (subscribers st)))])
                   (ticks st)).
Proof.
  intros Hwf Hw Hos.
  unfold save_subscribers, bind, get_self, write_file, ret. lazy beta iota zeta.
  rewrite (subscribers_data_document _ Hwf), Hos.
  destruct (disk st !! storage_file st) as [f|] eqn:Hfile.
  - exists (can_read f). rewrite (Hw f) by done.
    split_and!; [by intros ? [= <-]|done..].
  - exists true. done.
Qed.

Lemma add_subscriber_new (st : State) (addr norm : string) (metadata : pyobj) :
  validate_email addr = ValidatedEmail norm →
  dict_contains (lower norm) (subscribers st) = false →
  add_subscriber addr metadata st =
    ((PyDict [("message", PyStr "Subscriber added successfully")], 201),
     (save_subscribers
        (mkState (storage_file st)
                 (subscribers st ++
                    [(lower norm, new_subscriber norm metadata (ticks st))])
                 (disk st) (trace st) (S (S (S (ticks st)))))).2).
Proof.
  intros Hvalid Hfresh. unfold add_subscriber. rewrite Hvalid.
  unfold bind at 1. unfold get_self at 1. rewrite Hfresh.
  apply dict_contains_false in Hfresh.
  unfold bind, now, get_self, set_subscribers, ret. cbn [subscribers ticks storage_file disk trace].
  rewrite dict_set_fresh by done.
  fold (new_subscriber norm metadata (ticks st)).
  by destruct (save_subscribers _).
Qed.

Lemma add_subscriber_duplicate (st : State) (addr norm : string) (metadata : pyobj) :
  validate_email addr = ValidatedEmail norm →
  dict_contains (lower norm) (subscribers st) = true →
  add_subscriber addr metadata st =
    ((PyDict [("error", PyStr "Email already exists")], 409), st).
Proof.
  intros Hvalid Hdup. unfold add_subscriber. rewrite Hvalid.
  unfold bind, get_self. by rewrite Hdup.
Qed.

Lemma add_subscriber_invalid (st : State) (addr msg : string) (metadata : pyobj) :
  validate_email addr = EmailNotValidError msg →
  add_subscriber addr metadata st = ((PyDict [("error", PyStr msg)], 400), st).
Proof. intros Hinvalid. unfold add_subscriber. by rewrite Hinvalid. Qed.

Lemma py_or_supplied (supplied : option (dict pyobj)) :
  py_or (from_option PyDict PyNone supplied) (PyDict []) =
  PyDict (default [] supplied).
Proof. by destruct supplied as [[|item d]|]. Qed.

(** C1, amended: for a valid address whose lower-cased normal form is
    not a key of the index, [add_subscriber] answers 201 and appends
    one record under that key, with status pending, verified false and
    the supplied mapping as metadata (the empty mapping when none is
    given); the token is made from the first clock reading of the call,
    [joined_date] is the second reading and [last_updated] the third.
    The backing file is then opened for writing once, and when the
    write goes through the file holds the document of the whole new
    index and the trace shows that one write. *)
Theorem add_subscriber_registers (st : State) (addr norm : string)
    (supplied : option (dict pyobj)) :
  validate_email addr = ValidatedEmail norm →
  dict_contains (lower norm) (subscribers st) = false →
  let n := ticks st in
  let record :=
    mkSubscriber (PyStr (lower norm))
                 (PyStr (isoformat_now (S n)))
                 (PyStr "pending")
                 (PyStr (sha256_hexdigest (norm +:+ isoformat_now n)))
                 (PyBool false)
                 (PyStr (isoformat_now (S (S n))))
                 (PyDict (default [] supplied)) in
  let index := subscribers st ++ [(lower norm, record)] in
  let text := json_dump (index_document index) in
  let (response, st') :=
    add_subscriber addr (from_option PyDict PyNone supplied) st in
  response =
    (PyDict [("message", PyStr "Subscriber added successfully")], 201) ∧
  storage_file st' = storage_file st ∧
  subscribers st' = index ∧
  ticks st' = S (S (S n)) ∧
  saves (trace st') = S (saves (trace st)) ∧
  (dict_wf (subscribers st) →
   (∀ f, disk st !! storage_file st = Some f → can_write f = true) →
   os_write (length (trace st)) (storage_file st) text = Written →
   trace st' = trace st ++ [Wrote (storage_file st) text] ∧
   ∃ r, disk st' = <[storage_file st := mkFile r true text]> (disk st)).
Proof.
  intros Hvalid Hfresh n record index text.
  rewrite (add_subscriber_new st addr norm) by done.
  unfold new_subscriber. rewrite py_or_supplied.
  fold n. fold record. fold index.
  set (inserted := mkState (storage_file st) index (disk st) (trace st)
                           (S (S (S n)))).
  destruct (save_subscribers_frame inserted) as (Hfile & Hsubs & Hticks).
  pose proof (save_subscribers_saves inserted) as Hsaves.
  split_and!; [done..|].
  intros Hwf Hw Hos.
  destruct (save_subscribers_written inserted) as (r & _ & _ & ->);
    [|done..|].
  { cbn [inserted subscribers]. apply dict_contains_false in Hfresh.
    unfold index. rewrite <-(dict_set_fresh (lower norm)) by done.
    by apply dict_set_wf. }
  cbn [snd trace disk inserted storage_file subscribers]. split; [done|].
  by exists r.
Qed.

(** After a call with a valid address the index holds its key, and a
    well-formed index stays well-formed. *)
Lemma add_subscriber_key (st : State) (addr norm : string) (metadata : pyobj) :
  validate_email addr = ValidatedEmail norm →
  lower norm ∈ dict_keys (subscribers (add_subscriber addr metadata st).2) ∧
  (dict_wf (subscribers st) →
   dict_wf (subscribers (add_subscriber addr metadata st).2)).
Proof.
  intros Hvalid.
  destruct (dict_contains (lower norm) (subscribers st)) eqn:Hkey.
  - rewrite (add_subscriber_duplicate st addr norm) by done.
    split; [by apply dict_contains_true|done].
  - rewrite (add_subscriber_new st addr norm) by done. cbn [snd].
    destruct (save_subscribers_frame
      (mkState (storage_file st)
         (subscribers st ++
            [(lower norm, new_subscriber norm metadata (ticks st))])
         (disk st) (trace st) (S (S (S (ticks st)))))) as (_ & -> & _).
    cbn [subscribers]. apply dict_contains_false in Hkey.
    rewrite <-(dict_set_fresh (lower norm)) by done. split.
    + rewrite dict_set_keys_fresh by done. apply elem_of_app. right.
      apply list_elem_of_here.
    + intros Hwf. by apply dict_set_wf.
Qed.

(** C2: once a valid address has been passed to [add_subscriber], a
    call with any valid address whose normal form lower-cases to the
    same key answers 409 with the message of a duplicate and changes
    nothing; the index holds exactly one record under that key, which
    is the lower-cased normal form, and when the first call answered
    201 the email field of that record is the key. *)
Theorem add_subscriber_rejects_duplicate (st0 : State)
    (addr1 norm1 addr2 norm2 : string) (metadata1 metadata2 : pyobj) :
  dict_wf (subscribers st0) →
  validate_email addr1 = ValidatedEmail norm1 →
  validate_email addr2 = ValidatedEmail norm2 →
  lower norm2 = lower norm1 →
  let st := (add_subscriber addr1 metadata1 st0).2 in
  add_subscriber addr2 metadata2 st =
    ((PyDict [("error", PyStr "Email already exists")], 409), st) ∧
  length (filter (λ item, item.1 = lower norm1) (subscribers st)) = 1%nat ∧
  is_Some (dict_get (lower norm1) (subscribers st)) ∧
  ((add_subscriber addr1 metadata1 st0).1.2 = 201 →
   ∃ s, dict_get (lower norm1) (subscribers st) = Some s ∧
        email s = PyStr (lower norm1)).
Proof.
  intros Hwf Hvalid1 Hvalid2 Hsame st.
  destruct (add_subscriber_key st0 addr1 norm1 metadata1 Hvalid1)
    as [Hkey Hwf'].
  fold st in Hkey, Hwf'. split_and!.
  - apply (add_subscriber_duplicate st addr2 norm2); [done|].
    rewrite Hsame. by apply dict_contains_true.
  - apply dict_wf_once; [by apply Hwf'|done].
  - by apply dict_get_is_Some.
  - unfold st.
    destruct (dict_contains (lower norm1) (subscribers st0)) eqn:Hfresh.
    + by rewrite (add_subscriber_duplicate st0 addr1 norm1).
    + rewrite (add_subscriber_new st0 addr1 norm1) by done. cbn [fst snd].
      intros _.
      destruct (save_subscribers_frame
        (mkState (storage_file st0)
           (subscribers st0 ++
              [(lower norm1, new_subscriber norm1 metadata1 (ticks st0))])
           (disk st0) (trace st0) (S (S (S (ticks st0))))))
        as (_ & -> & _).
      cbn [subscribers]. eexists. split.
      * apply dict_get_app_fresh. by apply dict_contains_false.
      * done.
Qed.

(** ** Verification *)

Lemma py_eq_str_true (v : pyobj) (t : string) :
  py_eq_str v t = true ↔ v = PyStr t.
Proof.
  destruct v; simpl; try (split; [done|congruence]).
  rewrite bool_decide_eq_true. split; congruence.
Qed.

Lemma alter_middle {A} (f : A → A) (front : list A) (x : A) (post : list A) :
  alter f (length front) (front ++ x :: post) = front ++ f x :: post.
Proof.
  replace (length front) with (length front + 0)%nat by lia.
  by rewrite alter_app_r.
Qed.

Lemma verify_loop_miss (token : string) (items : dict Subscriber) :
  ∀ i st, token_free token items →
    verify_loop token i items st =
      ((PyDict [("error", PyStr "Invalid verification token")], 400), st).
Proof.
  induction items as [|[k s] items IH]; intros i st Hfree; [done|].
  apply Forall_cons in Hfree as [Hs Hfree]. simpl in *.
  rewrite Hs. by apply IH.
Qed.

Lemma verify_loop_hit (token : string) (pre : dict Subscriber) :
  ∀ front k s post st,
    subscribers st = front ++ pre ++ (k, s) :: post →
    token_free token pre →
    py_eq_str (verification_token s) token = true →
    verify_loop token (length front) (pre ++ (k, s) :: post) st =
      ((PyDict [("message", PyStr "Email verified successfully")], 200),
       (save_subscribers
          (mkState (storage_file st)
                   (front ++ pre ++
                      (k, verified_at (isoformat_now (ticks st)) s) :: post)
                   (disk st) (trace st) (S (ticks st)))).2).
Proof.
  induction pre as [|[k' s'] pre IH]; intros front k s post st Hsubs Hfree Hs.
  - simpl in *. rewrite Hs.
    unfold bind, mutate, set_subscribers, now, ret.
    cbn [subscribers ticks storage_file disk trace]. rewrite Hsubs.
    rewrite !alter_middle. cbn [fst snd].
    fold (verified_at (isoformat_now (ticks st)) s).
    by destruct (save_subscribers _).
  - apply Forall_cons in Hfree as [Hs' Hfree]. simpl in Hs'.
    cbn [app verify_loop]. rewrite Hs'.
    specialize (IH (front ++ [(k', s')]) k s post st).
    rewrite length_app, Nat.add_1_r, <-!app_assoc in IH.
    by apply IH.
Qed.

Lemma verify_subscriber_miss (st : State) (token : string) :
  token_free token (subscribers st) →
  verify_subscriber token st =
    ((PyDict [("error", PyStr "Invalid verification token")], 400), st).
Proof.
  intros Hfree. unfold verify_subscriber, bind, get_self.
  by apply verify_loop_miss.
Qed.

Lemma verify_subscriber_hit (st : State) (token : string)
    (pre post : dict Subscriber) (k : string) (s : Subscriber) :
  subscribers st = pre ++ (k, s) :: post →
  token_free token pre →
  verification_token s = PyStr token →
  verify_subscriber token st =
    ((PyDict [("message", PyStr "Email verified successfully")], 200),
     (save_subscribers
        (mkState (storage_file st)
                 (pre ++ (k, verified_at (isoformat_now (ticks st)) s) :: post)
                 (disk st) (trace st) (S (ticks st)))).2).
Proof.
  intros Hsubs Hfree Hs. unfold verify_subscriber, bind, get_self.
  rewrite Hsubs.
  apply (verify_loop_hit token pre [] k s post st); [done..|].
  by apply py_eq_str_true.
Qed.

(** The first record that holds a token some record holds. *)
Lemma token_holder_split (token : string) (items : dict Subscriber)
    (k0 : string) (s0 : Subscriber) :
  (k0, s0) ∈ items →
  verification_token s0 = PyStr token →
  ∃ pre k s post,
    items = pre ++ (k, s) :: post ∧ token_free token pre ∧
    verification_token s = PyStr token ∧ (k0, s0) ∈ (k, s) :: post.
Proof.
  induction items as [|[k1 s1] items IH]; intros Hin Hs0.
  - by apply elem_of_nil in Hin.
  - destruct (py_eq_str (verification_token s1) token) eqn:Hs1.
    + exists [], k1, s1, items. split_and!; [done|constructor| |done].
      by apply py_eq_str_true.
    + apply elem_of_cons in Hin as [Heq|Hin].
      { inversion Heq; subst. apply py_eq_str_true in Hs0. congruence. }
      destruct (IH Hin Hs0) as (pre & k & s & post & -> & Hfree & Hs & Hin').
      exists ((k1, s1) :: pre), k, s, post. split_and!; [done| |done..].
      by constructor.
Qed.

(** Either no record holds the token, or there is a first one. *)
Lemma first_match_split (token : string) (items : dict Subscriber) :
  token_free token items ∨
  ∃ pre k s post,
    items = pre ++ (k, s) :: post ∧ token_free token pre ∧
    verification_token s = PyStr token.
Proof.
  induction items as [|[k1 s1] items IH]; [left; constructor|].
  destruct (py_eq_str (verification_token s1) token) eqn:Hs1.
  - right. exists [], k1, s1, items. split_and!; [done|constructor|].
    by apply py_eq_str_true.
  - destruct IH as [Hfree|(pre & k & s & post & -> & Hfree & Hs)].
    + left. by constructor.
    + right. exists ((k1, s1) :: pre), k, s, post. split_and!; [done| |done].
      by constructor.
Qed.

(** ** Counting *)

Lemma count_active_app (a b : dict Subscriber) :
  count_active (a ++ b) = (count_active a + count_active b)%nat.
Proof.
  unfold count_active, dict_values.
  by rewrite fmap_app, List.filter_app, length_app.
Qed.

Lemma count_unverified_app (a b : dict Subscriber) :
  count_unverified (a ++ b) = (count_unverified a + count_unverified b)%nat.
Proof.
  unfold count_unverified, dict_values.
  by rewrite fmap_app, List.filter_app, length_app.
Qed.

Lemma count_active_cons (k : string) (s : Subscriber) (d : dict Subscriber) :
  count_active ((k, s) :: d) =
  ((if py_eq_str (status s) "active" then 1 else 0) + count_active d)%nat.
Proof. unfold count_active. simpl. by destruct (py_eq_str _ _). Qed.

Lemma count_unverified_cons (k : string) (s : Subscriber) (d : dict Subscriber) :
  count_unverified ((k, s) :: d) =
  ((if truthy (verified s) then 0 else 1) + count_unverified d)%nat.
Proof. unfold count_unverified. simpl. by destruct (truthy _). Qed.

Lemma get_subscriber_stats_eq (st : State) :
  get_subscriber_stats st =
    (PyDict [("total", PyInt (Z.of_nat (length (subscribers st))));
             ("active", PyInt (Z.of_nat (count_active (subscribers st))));
             ("unverified",
              PyInt (Z.of_nat (count_unverified (subscribers st))));
             ("last_updated", PyStr (isoformat_now (ticks st)))],
     mkState (storage_file st) (subscribers st) (disk st) (trace st)
             (S (ticks st))).
Proof. reflexivity. Qed.

Lemma verified_at_fields (t : string) (s : Subscriber) :
  verified_at t s =
  mkSubscriber (email s) (joined_date s) (PyStr "active")
               (verification_token s) (PyBool true) (PyStr t) (metadata s).
Proof. reflexivity. Qed.

Lemma dict_wf_middle (pre post : dict Subscriber) (k : string)
    (s s' : Subscriber) :
  dict_wf (pre ++ (k, s) :: post) → dict_wf (pre ++ (k, s') :: post).
Proof. unfold dict_wf, dict_keys. by rewrite !fmap_app, !fmap_cons. Qed.

(** C3, amended: when some record of the index holds the token, the
    index splits at the first such record (which is that record when no
    other one holds the token); [verify_subscriber] answers 200, sets
    in this first record verified to true, status to active and
    [last_updated] to the clock reading, and leaves the rest of the
    index as it was.  The backing file is then opened for writing once,
    and when the write goes through the file holds the document of the
    whole index with the changed record, and the trace shows that one
    write.  When the record was pending and unverified, the reports of
    [get_subscriber_stats] before and after differ by one more active
    and one less unverified. *)
Theorem verify_subscriber_activates (st : State) (token k0 : string)
    (s0 : Subscriber) :
  (k0, s0) ∈ subscribers st →
  verification_token s0 = PyStr token →
  ∃ pre k s post,
    subscribers st = pre ++ (k, s) :: post ∧
    token_free token pre ∧
    verification_token s = PyStr token ∧
    (token_free token post → (k, s) = (k0, s0)) ∧
    let s' :=
      mkSubscriber (email s) (joined_date s) (PyStr "active")
                   (verification_token s) (PyBool true)
                   (PyStr (isoformat_now (ticks st))) (metadata s) in
    let index := pre ++ (k, s') :: post in
    let text := json_dump (index_document index) in
    (let (response, st') := verify_subscriber token st in
     response =
       (PyDict [("message", PyStr "Email verified successfully")], 200) ∧
     storage_file st' = storage_file st ∧
     subscribers st' = index ∧
     ticks st' = S (ticks st) ∧
     saves (trace st') = S (saves (trace st)) ∧
     (dict_wf (subscribers st) →
      (∀ f, disk st !! storage_file st = Some f → can_write f = true) →
      os_write (length (trace st)) (storage_file st) text = Written →
      trace st' = trace st ++ [Wrote (storage_file st) text] ∧
      ∃ r, disk st' = <[storage_file st := mkFile r true text]> (disk st))) ∧
    (status s = PyStr "pending" → verified s = PyBool false →
     let (before, st0) := get_subscriber_stats st in
     let (response, st1) := verify_subscriber token st0 in
     let (after, _) := get_subscriber_stats st1 in
     ∃ a u : Z,
       report_field "active" before = Some (PyInt a) ∧
       report_field "active" after = Some (PyInt (a + 1)) ∧
       report_field "unverified" before = Some (PyInt (u + 1)) ∧
       report_field "unverified" after = Some (PyInt u)).
Proof.
  intros Hin Hs0.
  destruct (token_holder_split token _ k0 s0 Hin Hs0)
    as (pre & k & s & post & Hsubs & Hfree & Hs & Hin').
  exists pre, k, s, post. split_and!; [done..| |].
  { intros Hpost. apply elem_of_cons in Hin' as [Heq|Hin']; [done|].
    unfold token_free in Hpost. rewrite Forall_forall in Hpost.
    specialize (Hpost _ Hin'). simpl in Hpost.
    apply py_eq_str_true in Hs0. congruence. }
  intros s' index text. split.
  - rewrite (verify_subscriber_hit st token pre post k s) by done.
    rewrite verified_at_fields. fold s'. fold index.
    set (updated := mkState (storage_file st) index (disk st) (trace st)
                            (S (ticks st))).
    destruct (save_subscribers_frame updated) as (Hfile & Hsubs' & Hticks).
    pose proof (save_subscribers_saves updated) as Hsaves.
    split_and!; [done..|].
    intros Hwf Hw Hos.
    destruct (save_subscribers_written updated) as (r & _ & _ & ->);
      [|done..|].
    { cbn [updated subscribers]. rewrite Hsubs in Hwf.
      by apply (dict_wf_middle pre post k s). }
    cbn [snd trace disk updated storage_file subscribers]. split; [done|].
    by exists r.
  - intros Hpending Hunverified. rewrite get_subscriber_stats_eq.
    rewrite (verify_subscriber_hit _ token pre post k s) by done.
    cbn [storage_file subscribers disk trace ticks].
    destruct (save_subscribers _) as [[] st1] eqn:Hsave.
    rewrite get_subscriber_stats_eq.
    pose proof (save_subscribers_frame
      (mkState (storage_file st)
         (pre ++ (k, verified_at (isoformat_now (S (ticks st))) s) :: post)
         (disk st) (trace st) (S (S (ticks st))))) as (_ & Hst1 & _).
    rewrite Hsave in Hst1. cbn [fst snd subscribers] in Hst1 |- *.
    rewrite Hst1, Hsubs.
    rewrite !count_active_app, !count_unverified_app,
      !count_active_cons, !count_unverified_cons.
    rewrite Hpending, Hunverified. simpl.
    exists (Z.of_nat (count_active pre + count_active post)),
           (Z.of_nat (count_unverified pre + count_unverified post)).
    split_and!; f_equal; f_equal; lia.
Qed.

(** C4: when no record of the index holds the token,
    [verify_subscriber] answers 400 with the message of an invalid
    token and leaves the whole state as it was: no record is touched,
    nothing is written or logged and the clock is not read. *)
Theorem verify_subscriber_unknown_token (st : State) (token : string) :
  token_free token (subscribers st) →
  verify_subscriber token st =
    ((PyDict [("error", PyStr "Invalid verification token")], 400), st).
Proof. apply verify_subscriber_miss. Qed.

(** C10: when the records at places [i < j] both hold the token and no
    record before place [i] does, [verify_subscriber] rewrites the
    record at place [i] and leaves every other place, place [j]
    included, as it was. *)
Theorem verify_subscriber_first_match_only (st : State) (token : string)
    (i j : nat) (ki kj : string) (si sj : Subscriber) :
  (i < j)%nat →
  subscribers st !! i = Some (ki, si) →
  subscribers st !! j = Some (kj, sj) →
  verification_token si = PyStr token →
  verification_token sj = PyStr token →
  token_free token (take i (subscribers st)) →
  let st' := (verify_subscriber token st).2 in
  subscribers st' !! i =
    Some (ki, verified_at (isoformat_now (ticks st)) si) ∧
  subscribers st' !! j = Some (kj, sj) ∧
  (∀ n, n ≠ i → subscribers st' !! n = subscribers st !! n) ∧
  length (subscribers st') = length (subscribers st).
Proof.
  intros Hij Hi Hj Hsi Hsj Hfree st'.
  assert (Hsplit : subscribers st =
            take i (subscribers st) ++ (ki, si) :: drop (S i) (subscribers st))
    by (by rewrite take_drop_middle).
  assert (Hst' : subscribers st' =
            <[i := (ki, verified_at (isoformat_now (ticks st)) si)]>
              (subscribers st)).
  { unfold st'.
    rewrite (verify_subscriber_hit st token _ _ ki si Hsplit Hfree Hsi).
    cbn [snd].
    destruct (save_subscribers_frame
      (mkState (storage_file st)
         (take i (subscribers st) ++
            (ki, verified_at (isoformat_now (ticks st)) si)
              :: drop (S i) (subscribers st))
         (disk st) (trace st) (S (ticks st)))) as (_ & -> & _).
    cbn [subscribers]. symmetry. apply insert_take_drop.
    by eapply lookup_lt_Some. }
  rewrite Hst'. split_and!.
  - apply list_lookup_insert_eq. by eapply lookup_lt_Some.
  - rewrite list_lookup_insert_ne by lia. done.
  - intros n Hn. by rewrite list_lookup_insert_ne.
  - apply length_insert.
Qed.

(** C5, amended: when some record holds the token, two calls of
    [verify_subscriber] in a row both answer 200; the second call
    leaves the index as the first one left it except for the
    [last_updated] of the first record holding the token, which it sets
    to the clock reading of the second call (so the index is the same
    when the two readings agree); status and verified stay active and
    true, and the total, active and unverified fields of the report of
    [get_subscriber_stats] are the same after both calls.  The second
    call opens the backing file for writing once more, and when that
    write goes through the file holds the document of the index with
    the new [last_updated], and the trace shows the write. *)
Theorem verify_subscriber_twice (st : State) (token k0 : string)
    (s0 : Subscriber) :
  (k0, s0) ∈ subscribers st →
  verification_token s0 = PyStr token →
  let (r1, st1) := verify_subscriber token st in
  let (r2, st2) := verify_subscriber token st1 in
  r1 = (PyDict [("message", PyStr "Email verified successfully")], 200) ∧
  r2 = (PyDict [("message", PyStr "Email verified successfully")], 200) ∧
  (∃ pre k s post,
     subscribers st1 = pre ++ (k, s) :: post ∧
     token_free token pre ∧ verification_token s = PyStr token ∧
     status s = PyStr "active" ∧ verified s = PyBool true ∧
     last_updated s = PyStr (isoformat_now (ticks st)) ∧
     subscribers st2 =
       pre ++ (k, set_last_updated (PyStr (isoformat_now (S (ticks st)))) s)
           :: post) ∧
  (isoformat_now (S (ticks st)) = isoformat_now (ticks st) →
   subscribers st2 = subscribers st1) ∧
  (∀ name, name ∈ ["total"; "active"; "unverified"] →
     report_field name (get_subscriber_stats st2).1 =
     report_field name (get_subscriber_stats st1).1) ∧
  saves (trace st2) = S (saves (trace st1)) ∧
  (dict_wf (subscribers st) →
   (∀ f, disk st1 !! storage_file st1 = Some f → can_write f = true) →
   let text := json_dump (index_document (subscribers st2)) in
   os_write (length (trace st1)) (storage_file st1) text = Written →
   trace st2 = trace st1 ++ [Wrote (storage_file st1) text] ∧
   ∃ r, disk st2 = <[storage_file st1 := mkFile r true text]> (disk st1)).
Proof.
  intros Hin Hs0.
  destruct (token_holder_split token _ k0 s0 Hin Hs0)
    as (pre & k & s & post & Hsubs & Hfree & Hs & _).
  rewrite (verify_subscriber_hit st token pre post k s) by done.
  set (t := isoformat_now (ticks st)).
  pose proof (save_subscribers_frame
    (mkState (storage_file st) (pre ++ (k, verified_at t s) :: post)
             (disk st) (trace st) (S (ticks st)))) as (_ & Hsubs1 & Hticks1).
  destruct (save_subscribers _) as [[] st1]. cbn [fst snd] in *.
  cbn [subscribers ticks] in Hsubs1, Hticks1.
  rewrite (verify_subscriber_hit st1 token pre post k (verified_at t s))
    by done.
  rewrite Hticks1. set (t' := isoformat_now (S (ticks st))).
  set (updated := mkState (storage_file st1)
         (pre ++ (k, verified_at t' (verified_at t s)) :: post)
         (disk st1) (trace st1) (S (S (ticks st)))).
  pose proof (save_subscribers_frame updated) as (_ & Hsubs2 & _).
  pose proof (save_subscribers_saves updated) as Hsaves.
  assert (Hwritten :
    dict_wf (subscribers st) →
    (∀ f, disk st1 !! storage_file st1 = Some f → can_write f = true) →
    os_write (length (trace st1)) (storage_file st1)
      (json_dump (index_document (subscribers (save_subscribers updated).2)))
      = Written →
    trace (save_subscribers updated).2 =
      trace st1 ++
        [Wrote (storage_file st1)
           (json_dump
              (index_document (subscribers (save_subscribers updated).2)))] ∧
    ∃ r, disk (save_subscribers updated).2 =
         <[storage_file st1 :=
             mkFile r true
               (json_dump
                  (index_document
                     (subscribers (save_subscribers updated).2)))]>
           (disk st1)).
  { rewrite Hsubs2. intros Hwf Hw Hos.
    destruct (save_subscribers_written updated) as (r & _ & _ & ->);
      [|done..|].
    { cbn [updated subscribers]. rewrite Hsubs in Hwf.
      by apply (dict_wf_middle pre post k s). }
    cbn [snd trace disk updated storage_file subscribers]. split; [done|].
    by exists r. }
  destruct (save_subscribers updated) as [[] st2]. cbn [fst snd] in *.
  cbn [subscribers updated] in Hsubs2.
  split_and!; [done..| | | |done|done].
  - exists pre, k, (verified_at t s), post. by rewrite Hsubs1, Hsubs2.
  - intros Ht. rewrite Hsubs1, Hsubs2. subst t t'. by rewrite Ht.
  - intros name Hname. rewrite !get_subscriber_stats_eq. cbn [fst].
    rewrite Hsubs1, Hsubs2.
    rewrite !length_app, !count_active_app, !count_unverified_app,
      !count_active_cons, !count_unverified_cons. cbn [length].
    repeat (apply elem_of_cons in Hname as [->|Hname]; [done|]).
    by apply elem_of_nil in Hname.
Qed.

(** ** Statistics *)

Lemma filter_active_length (l : list Subscriber) :
  length (List.filter (λ s, py_eq_str (status s) "active") l) =
  length (filter (λ s, status s = PyStr "active") l).
Proof.
  induction l as [|s l IH]; [done|]. rewrite filter_cons. cbn [List.filter].
  destruct (py_eq_str (status s) "active") eqn:Hs.
  - apply py_eq_str_true in Hs. rewrite decide_True by done.
    cbn [length]. by f_equal.
  - rewrite decide_False; [done|]. intros Hs'. apply py_eq_str_true in Hs'.
    congruence.
Qed.

Lemma filter_unverified_length (l : list Subscriber) :
  length (List.filter (λ s, negb (truthy (verified s))) l) =
  length (filter (λ s, truthy (verified s) = false) l).
Proof.
  induction l as [|s l IH]; [done|]. rewrite filter_cons. cbn [List.filter].
  destruct (truthy (verified s)) eqn:Hs; cbn [negb].
  - by rewrite decide_False.
  - rewrite decide_True by done. cbn [length]. by f_equal.
Qed.

Lemma filter_unverified_bool (l : list Subscriber) :
  Forall (λ s, is_bool (verified s) = true) l →
  filter (λ s, truthy (verified s) = false) l =
  filter (λ s, verified s = PyBool false) l.
Proof.
  induction 1 as [|s l Hs _ IH]; [done|]. rewrite !filter_cons, IH.
  destruct (verified s) as [|[]| | | | |]; done.
Qed.

(** C6, amended: [get_subscriber_stats] returns the number of records
    as total, the number of records whose status is active as active,
    the number of records whose verified flag is false (for Python: not
    true; for a boolean flag: equal to false) as unverified, and the
    clock reading under the name last_updated; there is no field named
    generated_at.  It reads the clock and changes nothing else: index,
    disk and trace stay as they were.  On an empty index the three
    counts are 0. *)
Theorem get_subscriber_stats_report (st : State) :
  let values := dict_values (subscribers st) in
  let unverified := filter (λ s, truthy (verified s) = false) values in
  get_subscriber_stats st =
    (PyDict [("total", PyInt (Z.of_nat (length (subscribers st))));
             ("active",
              PyInt (Z.of_nat
                (length (filter (λ s, status s = PyStr "active") values))));
             ("unverified", PyInt (Z.of_nat (length unverified)));
             ("last_updated", PyStr (isoformat_now (ticks st)))],
     mkState (storage_file st) (subscribers st) (disk st) (trace st)
             (S (ticks st))) ∧
  report_field "generated_at" (get_subscriber_stats st).1 = None ∧
  (Forall (λ s, is_bool (verified s) = true) values →
   unverified = filter (λ s, verified s = PyBool false) values) ∧
  (subscribers st = [] →
   ∃ t, (get_subscriber_stats st).1 =
        PyDict [("total", PyInt 0); ("active", PyInt 0);
                ("unverified", PyInt 0); ("last_updated", PyStr t)]).
Proof.
  intros values unverified. split_and!.
  - rewrite get_subscriber_stats_eq. unfold count_active, count_unverified.
    by rewrite filter_active_length, filter_unverified_length.
  - done.
  - apply filter_unverified_bool.
  - intros Hempty. rewrite get_subscriber_stats_eq, Hempty. by eexists.
Qed.

(** ** The life of a record *)

Lemma reachable_lifecycle (st : State) :
  reachable st → Forall (λ item, lifecycle item.2) (subscribers st).
Proof.
  induction 1 as [st Hempty|st addr metadata _ IH|st token _ IH].
  - rewrite Hempty. constructor.
  - destruct (validate_email addr) as [norm|msg] eqn:Hvalid.
    + destruct (dict_contains (lower norm) (subscribers st)) eqn:Hkey.
      * by rewrite (add_subscriber_duplicate st addr norm).
      * rewrite (add_subscriber_new st addr norm) by done. cbn [snd].
        destruct (save_subscribers_frame
          (mkState (storage_file st)
             (subscribers st ++
                [(lower norm, new_subscriber norm metadata (ticks st))])
             (disk st) (trace st) (S (S (S (ticks st))))))
          as (_ & -> & _).
        cbn [subscribers]. apply Forall_app. split; [done|].
        constructor; [|constructor]. by left.
    + by rewrite (add_subscriber_invalid st addr msg).
  - destruct (first_match_split token (subscribers st))
      as [Hfree|(pre & k & s & post & Hsubs & Hfree & Hs)].
    + by rewrite verify_subscriber_miss.
    + rewrite (verify_subscriber_hit st token pre post k s) by done.
      cbn [snd].
      destruct (save_subscribers_frame
        (mkState (storage_file st)
           (pre ++ (k, verified_at (isoformat_now (ticks st)) s) :: post)
           (disk st) (trace st) (S (ticks st)))) as (_ & -> & _).
      cbn [subscribers]. rewrite Hsubs in IH.
      apply Forall_app in IH as [Hpre Hpost].
      apply Forall_cons in Hpost as [_ Hpost].
      apply Forall_app. split; [done|]. constructor; [|done]. by right.
Qed.

(** C9: in every state reached from an empty index by calls of
    [add_subscriber] and [verify_subscriber], every record with
    verified true has status active and every record with status
    pending has verified false. *)
Theorem reachable_verified_active (st : State) (k : string) (s : Subscriber) :
  reachable st →
  (k, s) ∈ subscribers st →
  (verified s = PyBool true → status s = PyStr "active") ∧
  (status s = PyStr "pending" → verified s = PyBool false).
Proof.
  intros Hreach Hin. apply reachable_lifecycle in Hreach.
  rewrite Forall_forall in Hreach. specialize (Hreach _ Hin).
  destruct Hreach as [[Hst Hv]|[Hst Hv]]; simpl in *;
    split; intros Heq; congruence.
Qed.

(** ** The backing file *)

Lemma Subscriber_init_asdict (s : Subscriber) : Subscriber_init (asdict s) = Ok s.
Proof. by destruct s. Qed.

Lemma result_map_asdict (d : dict Subscriber) :
  result_map parse_item ((λ item, (item.1, asdict item.2)) <$> d) = Ok d.
Proof.
  induction d as [|[k s] d IH]; [done|].
  rewrite fmap_cons. cbn [result_map]. unfold parse_item at 1.
  cbn [fst snd]. rewrite Subscriber_init_asdict. cbn [and_then].
  by rewrite IH.
Qed.

(** Reading back the document written for a well-formed index. *)
Lemma parse_subscribers_data (d : dict Subscriber) :
  dict_wf d → parse_subscribers (subscribers_data d) = Ok d.
Proof.
  intros Hwf. rewrite subscribers_data_wf by done.
  unfold parse_subscribers. rewrite result_map_asdict. cbn [and_then].
  by rewrite dict_comprehension_wf.
Qed.

Lemma Subscriber_init_shaped (v : pyobj) (s : Subscriber) :
  Subscriber_init v = Ok s → record_shaped v.
Proof.
  destruct v as [| | | | |kw|]; try done. unfold Subscriber_init.
  destruct (forallb _ _) eqn:Hkeys; [|done].
  destruct (dict_get "email" kw) eqn:H1; [|done].
  destruct (dict_get "joined_date" kw) eqn:H2; [|done].
  destruct (dict_get "status" kw) eqn:H3; [|done].
  destruct (dict_get "verification_token" kw) eqn:H4; [|done].
  destruct (dict_get "verified" kw) eqn:H5; [|done].
  destruct (dict_get "last_updated" kw) eqn:H6; [|done].
  destruct (dict_get "metadata" kw) eqn:H7; [|done].
  intros _. exists kw. split; [done|]. intros k. split.
  - intros Hk. rewrite forallb_forall in Hkeys.
    apply list_elem_of_In, Hkeys in Hk. by apply bool_decide_eq_true in Hk.
  - unfold field_names. rewrite !elem_of_cons, elem_of_nil.
    intros [->|[->|[->|[->|[->|[->|[->|[]]]]]]]];
      apply dict_get_is_Some; by eexists.
Qed.

Lemma Subscriber_init_raises (v : pyobj) (e : Exn) :
  Subscriber_init v = Raise e → e = TypeError.
Proof.
  destruct v as [| | | | |kw|]; try (by intros [= <-]). unfold Subscriber_init.
  destruct (forallb _ _); [|by intros [= <-]].
  repeat (destruct (dict_get _ kw); [|by intros [= <-]]). done.
Qed.

Lemma Subscriber_init_unshaped (v : pyobj) :
  ¬ record_shaped v → Subscriber_init v = Raise TypeError.
Proof.
  intros Hshape. destruct (Subscriber_init v) as [s|e] eqn:Hinit.
  - by apply Subscriber_init_shaped in Hinit.
  - by apply Subscriber_init_raises in Hinit as ->.
Qed.

Lemma result_map_raises (items : dict pyobj) (e : Exn) :
  result_map parse_item items = Raise e → e = TypeError.
Proof.
  induction items as [|[k v] items IH]; [done|]. cbn [result_map].
  unfold parse_item at 1. cbn [fst snd].
  destruct (Subscriber_init v) as [s|e'] eqn:Hinit; cbn [and_then].
  - destruct (result_map parse_item items); cbn [and_then]; [done|].
    intros [= <-]. by apply IH.
  - intros [= <-]. by apply Subscriber_init_raises in Hinit.
Qed.

Lemma result_map_unshaped (items : dict pyobj) :
  Exists (λ item, ¬ record_shaped item.2) items →
  result_map parse_item items = Raise TypeError.
Proof.
  intros Hbad.
  destruct (result_map parse_item items) as [parsed|e] eqn:Hmap.
  - exfalso. revert parsed Hmap.
    induction Hbad as [[k v] items Hv|[k v] items _ IH]; intros parsed;
      cbn [result_map]; unfold parse_item at 1; cbn [fst snd] in *.
    + by rewrite Subscriber_init_unshaped.
    + destruct (Subscriber_init v); cbn [and_then]; [|done].
      destruct (result_map parse_item items); cbn [and_then]; [|done].
      intros _. by eapply IH.
  - by apply result_map_raises in Hmap as ->.
Qed.

(** What the [try] block of [load_subscribers] computes from a file
    that exists. *)
Lemma corrupt_raises (f : File) (e : Exn) :
  corrupt f e →
  and_then (and_then (if can_read f then Ok (content f) else Raise OSError)
                     json_decode) parse_subscribers = Raise e.
Proof.
  unfold json_decode.
  destruct 1 as [Hr|Hr Hjson|data Hr Hjson Hdata|items Hr Hjson Hbad];
    rewrite Hr; cbn [and_then]; [done|rewrite Hjson; cbn [and_then]..].
  - done.
  - destruct data; try done. by edestruct Hdata.
  - unfold parse_subscribers. by rewrite result_map_unshaped.
Qed.

Lemma load_subscribers_raise (st : State) (f : File) (e : Exn) :
  disk st !! storage_file st = Some f →
  corrupt f e →
  load_subscribers st =
    (tt, mkState (storage_file st) [] (disk st)
                 (trace st ++ [LoggedError "Error loading subscribers" e])
                 (ticks st)).
Proof.
  intros Hfile Hcorrupt. apply corrupt_raises in Hcorrupt. revert Hcorrupt.
  unfold load_subscribers, bind, get_self, path_exists, read_file.
  lazy beta iota. rewrite Hfile. rewrite bool_decide_eq_true_2 by by eexists.
  lazy beta iota. rewrite Hfile.
  destruct (can_read f); intros Hcorrupt; lazy beta iota;
    rewrite Hcorrupt; done.
Qed.

Lemma load_subscribers_absent (st : State) :
  disk st !! storage_file st = None → load_subscribers st = (tt, st).
Proof.
  intros Hfile. unfold load_subscribers, bind, get_self, path_exists.
  rewrite Hfile. rewrite bool_decide_eq_false_2; [done|]. by intros [? ?].
Qed.

Lemma load_subscribers_ok (st : State) (f : File) (data : pyobj)
    (d : dict Subscriber) :
  disk st !! storage_file st = Some f →
  can_read f = true →
  json_load (content f) = Some data →
  parse_subscribers data = Ok d →
  load_subscribers st =
    (tt, mkState (storage_file st) d (disk st) (trace st) (ticks st)).
Proof.
  intros Hfile Hr Hjson Hparse.
  unfold load_subscribers, bind, get_self, path_exists, read_file.
  lazy beta iota. rewrite Hfile. rewrite bool_decide_eq_true_2 by by eexists.
  lazy beta iota. rewrite Hfile, Hr. cbn [and_then]. unfold json_decode. rewrite Hjson.
  cbn [and_then]. by rewrite Hparse.
Qed.

Lemma parse_index_document (d : dict Subscriber) :
  dict_wf d → parse_subscribers (index_document d) = Ok d.
Proof.
  intros Hwf. rewrite <-subscribers_data_document by done.
  by apply parse_subscribers_data.
Qed.

(** Loading, in any manager on the same path, after a save that went
    through. *)
Lemma load_after_save (st : State) (junk : dict Subscriber) :
  dict_wf (subscribers st) →
  (∀ f, disk st !! storage_file st = Some f →
        can_write f = true ∧ can_read f = true) →
  os_write (length (trace st)) (storage_file st)
           (json_dump (index_document (subscribers st))) = Written →
  json_load (json_dump (index_document (subscribers st))) =
    Some (index_document (subscribers st)) →
  let saved := (save_subscribers st).2 in
  load_subscribers
    (mkState (storage_file st) junk (disk saved) (trace saved) (ticks saved)) =
    (tt, mkState (storage_file st) (subscribers st) (disk saved)
                 (trace st ++
                    [Wrote (storage_file st)
                           (json_dump (index_document (subscribers st)))])
                 (ticks st)).
Proof.
  intros Hwf Hperm Hos Hjson saved. subst saved.
  destruct (save_subscribers_written st) as (r & Hr & Hr' & Hsave);
    [done|by intros f Hf; apply Hperm|done|].
  assert (r = true) as ->.
  { destruct (disk st !! storage_file st) as [f|] eqn:Hfile; [|by apply Hr'].
    rewrite (Hr f eq_refl). by apply Hperm. }
  rewrite Hsave. cbn [snd disk trace ticks].
  erewrite load_subscribers_ok;
    [done|cbn [disk storage_file]; apply lookup_insert_eq|done|apply Hjson
    |by apply parse_index_document].
Qed.

(** C7, amended: after [save_subscribers] has written a well-formed
    index to a backing file that can be written and read, and when
    [json.load] reads the saved document back as [json.dump] was given
    it (as it does for metadata made of None, booleans, integers,
    strings, lists and dicts with string keys, and does not for a
    tuple), a manager built on the same file, whatever it held before,
    holds an index equal to the saved one, record by record and field
    by field, and nothing is logged; so does a manager on that path
    that loads again. *)
Theorem save_load_roundtrip (st : State) (path0 : string)
    (junk : dict Subscriber) :
  dict_wf (subscribers st) →
  (∀ f, disk st !! storage_file st = Some f →
        can_write f = true ∧ can_read f = true) →
  let text := json_dump (index_document (subscribers st)) in
  os_write (length (trace st)) (storage_file st) text = Written →
  json_load text = Some (index_document (subscribers st)) →
  let saved := (save_subscribers st).2 in
  let loaded :=
    (SubscriberManager_init (storage_file st)
       (mkState path0 junk (disk saved) (trace saved) (ticks saved))).2 in
  subscribers loaded = subscribers st ∧
  trace loaded = trace st ++ [Wrote (storage_file st) text] ∧
  subscribers
    (load_subscribers
       (mkState (storage_file st) junk (disk saved) (trace saved)
                (ticks saved))).2 = subscribers st.
Proof.
  intros Hwf Hperm text Hos Hjson saved loaded.
  pose proof (load_after_save st [] Hwf Hperm Hos Hjson) as Hinit.
  pose proof (load_after_save st junk Hwf Hperm Hos Hjson) as Hload.
  cbv zeta in Hinit, Hload. fold saved in Hinit, Hload.
  unfold loaded, SubscriberManager_init, bind, set_storage_file,
    set_subscribers.
  cbn [storage_file subscribers disk trace ticks].
  by rewrite Hinit, Hload.
Qed.

(** C8: a manager built on a path where no file exists has an empty
    index and logs nothing; one built on a file that exists but cannot
    be opened, is no JSON, is no JSON object or holds a value that is
    no record logs the error and has an empty index.  In a manager that
    already holds records, [load_subscribers] empties the index on such
    a file and leaves it as it is when the file is absent. *)
Theorem load_subscribers_absent_or_corrupt (st : State) (path : string) :
  (disk st !! path = None →
   SubscriberManager_init path st =
     (tt, mkState path [] (disk st) (trace st) (ticks st))) ∧
  (∀ f e, disk st !! path = Some f → corrupt f e →
   SubscriberManager_init path st =
     (tt, mkState path [] (disk st)
                  (trace st ++ [LoggedError "Error loading subscribers" e])
                  (ticks st))) ∧
  (∀ f e, disk st !! storage_file st = Some f → corrupt f e →
   load_subscribers st =
     (tt, mkState (storage_file st) [] (disk st)
                  (trace st ++ [LoggedError "Error loading subscribers" e])
                  (ticks st))) ∧
  (disk st !! storage_file st = None → load_subscribers st = (tt, st)).
Proof.
  split_and!.
  - intros Hfile.
    unfold SubscriberManager_init, bind, set_storage_file, set_subscribers.
    cbn [storage_file subscribers disk trace ticks].
    by rewrite load_subscribers_absent.
  - intros f e Hfile Hcorrupt.
    unfold SubscriberManager_init, bind, set_storage_file, set_subscribers.
    cbn [storage_file subscribers disk trace ticks].
    by rewrite (load_subscribers_raise _ f e).
  - apply load_subscribers_raise.
  - apply load_subscribers_absent.
Qed.

(** ** The index is a dictionary in every run *)

Lemma load_subscribers_wf (st : State) :
  dict_wf (subscribers st) → dict_wf (subscribers (load_subscribers st).2).
Proof.
  intros Hwf.
  unfold load_subscribers, bind, get_self, path_exists, read_file, ret,
    logging_error, emit, set_subscribers.
  lazy beta iota. destruct (bool_decide _); [|done]. lazy beta iota.
  destruct (disk st !! storage_file st) as [f|]; [destruct (can_read f)|];
    cbn [and_then]; try apply NoDup_nil_2.
  unfold json_decode. destruct (json_load (content f)) as [data|];
    cbn [and_then]; [|apply NoDup_nil_2].
  destruct data as [| | | | |items|]; try apply NoDup_nil_2.
  unfold parse_subscribers.
  destruct (result_map parse_item items); cbn [and_then];
    [apply dict_comprehension_is_wf|apply NoDup_nil_2].
Qed.

Lemma SubscriberManager_init_wf (st : State) (path : string) :
  dict_wf (subscribers (SubscriberManager_init path st).2).
Proof.
  unfold SubscriberManager_init, bind, set_storage_file, set_subscribers.
  apply load_subscribers_wf. apply NoDup_nil_2.
Qed.

Lemma verify_subscriber_keys (st : State) (token : string) :
  dict_keys (subscribers (verify_subscriber token st).2) =
  dict_keys (subscribers st).
Proof.
  destruct (first_match_split token (subscribers st))
    as [Hfree|(pre & k & s & post & Hsubs & Hfree & Hs)].
  - by rewrite verify_subscriber_miss.
  - rewrite (verify_subscriber_hit st token pre post k s) by done.
    cbn [snd].
    destruct (save_subscribers_frame
      (mkState (storage_file st)
         (pre ++ (k, verified_at (isoformat_now (ticks st)) s) :: post)
         (disk st) (trace st) (S (ticks st)))) as (_ & -> & _).
    cbn [subscribers]. rewrite Hsubs. unfold dict_keys.
    by rewrite !fmap_app, !fmap_cons.
Qed.

Lemma reachable_wf (st : State) : reachable st → dict_wf (subscribers st).
Proof.
  induction 1 as [st Hempty|st addr metadata _ IH|st token _ IH].
  - rewrite Hempty. apply NoDup_nil_2.
  - destruct (validate_email addr) as [norm|msg] eqn:Hvalid.
    + by apply (add_subscriber_key st addr norm metadata Hvalid).
    + by rewrite (add_subscriber_invalid st addr msg).
  - unfold dict_wf. by rewrite verify_subscriber_keys.
Qed.

(** ** What makes a file corrupt *)

#[local] Ltac field_member :=
  unfold field_names;
  repeat first [apply list_elem_of_here | apply list_elem_of_further].

Lemma Subscriber_init_of_shaped (v : pyobj) :
  record_shaped v → ∃ s, Subscriber_init v = Ok s.
Proof.
  intros (kw & -> & Hkeys). unfold Subscriber_init.
  assert (Hall : forallb (λ k, bool_decide (k ∈ field_names)) (dict_keys kw)
                 = true).
  { apply forallb_forall. intros k Hk. apply bool_decide_eq_true.
    by apply Hkeys, list_elem_of_In. }
  rewrite Hall.
  assert (Hget : ∀ k, k ∈ field_names → is_Some (dict_get k kw)).
  { intros k Hk. by apply dict_get_is_Some, Hkeys. }
  destruct (Hget "email") as [? ->]; [field_member|].
  destruct (Hget "joined_date") as [? ->]; [field_member|].
  destruct (Hget "status") as [? ->]; [field_member|].
  destruct (Hget "verification_token") as [? ->]; [field_member|].
  destruct (Hget "verified") as [? ->]; [field_member|].
  destruct (Hget "last_updated") as [? ->]; [field_member|].
  destruct (Hget "metadata") as [? ->]; [field_member|].
  by eexists.
Qed.

Lemma result_map_raise_unshaped (items : dict pyobj) (e : Exn) :
  result_map parse_item items = Raise e →
  Exists (λ item, ¬ record_shaped item.2) items.
Proof.
  induction items as [|[k v] items IH]; [done|]. cbn [result_map].
  unfold parse_item at 1. cbn [fst snd].
  destruct (Subscriber_init v) as [s|e'] eqn:Hinit; cbn [and_then].
  - destruct (result_map parse_item items) eqn:Hmap; cbn [and_then]; [done|].
    intros [= <-]. apply Exists_cons_tl. by apply IH.
  - intros _. apply Exists_cons_hd. cbn [snd].
    intros [s Hs]%Subscriber_init_of_shaped. congruence.
Qed.

(** The causes listed by [corrupt] are exactly those for which the
    [try] block of [load_subscribers] raises. *)
Lemma corrupt_iff (f : File) (e : Exn) :
  corrupt f e ↔
  and_then (and_then (if can_read f then Ok (content f) else Raise OSError)
                     json_decode) parse_subscribers = Raise e.
Proof.
  split; [apply corrupt_raises|]. unfold json_decode.
  destruct (can_read f) eqn:Hr; cbn [and_then].
  - destruct (json_load (content f)) as [data|] eqn:Hjson; cbn [and_then].
    + destruct data as [| | | | |items|];
        try (intros [= <-]; by eapply corrupt_no_object).
      unfold parse_subscribers.
      destruct (result_map parse_item items) as [parsed|e'] eqn:Hmap;
        cbn [and_then]; [done|].
      intros [= <-]. pose proof (result_map_raises _ _ Hmap) as ->.
      eapply corrupt_bad_record; [done..|].
      by eapply result_map_raise_unshaped.
    + intros [= <-]. by apply corrupt_no_json.
  - intros [= <-]. by apply corrupt_unreadable.
Qed.

End Properties.

(** * The properties on the sample environment *)

Section Examples.
#[local] Existing Instance Sample.env.

(** C1 as stated fails: the registration succeeds, and the record it
    makes has a [joined_date] that differs from its [last_updated], so
    no single instant is in both. *)
Lemma add_subscriber_instants_differ :
  (add_subscriber "A@Example.com" PyNone Sample.started).1 =
    (PyDict [("message", PyStr "Subscriber added successfully")], 201) ∧
  ∃ s, subscribers (add_subscriber "A@Example.com" PyNone Sample.started).2 =
         [("a@example.com", s)] ∧
       status s = PyStr "pending" ∧ verified s = PyBool false ∧
       joined_date s ≠ last_updated s.
Proof.
  split; [reflexivity|]. eexists. split; [reflexivity|].
  split_and!; [reflexivity..|]. vm_compute. intros [=].
Qed.

Lemma add_subscriber_registers_witness :
  validate_email "A@Example.com" = ValidatedEmail "A@example.com" ∧
  dict_contains (lower "A@example.com") (subscribers Sample.started) = false ∧
  dict_wf (subscribers Sample.started) ∧
  (∀ f, disk Sample.started !! storage_file Sample.started = Some f →
        can_write f = true) ∧
  (add_subscriber "A@Example.com" PyNone Sample.started).1 =
    (PyDict [("message", PyStr "Subscriber added successfully")], 201) ∧
  subscribers (add_subscriber "A@Example.com" PyNone Sample.started).2 =
    [("a@example.com", Sample.pending_record)] ∧
  saves (trace (add_subscriber "A@Example.com" PyNone Sample.started).2) =
    1%nat ∧
  trace (add_subscriber "A@Example.com" PyNone Sample.started).2 =
    [Wrote Sample.EMAILS_FILE
       (json_dump
          (index_document [("a@example.com", Sample.pending_record)]))].
Proof.
  assert (Hvalid : validate_email "A@Example.com" =
                   ValidatedEmail "A@example.com") by reflexivity.
  assert (Hfresh : dict_contains (lower "A@example.com")
                     (subscribers Sample.started) = false) by reflexivity.
  assert (Hwf : dict_wf (subscribers Sample.started)).
  { vm_compute. apply NoDup_nil_2. }
  assert (Hw : ∀ f,
            disk Sample.started !! storage_file Sample.started = Some f →
            can_write f = true).
  { intros f Hf. vm_compute in Hf. discriminate Hf. }
  split_and!; [done..| | | |].
  all: pose proof (add_subscriber_registers Sample.started "A@Example.com"
                     "A@example.com" None Hvalid Hfresh) as Hreg;
    cbv zeta in Hreg; cbn [from_option] in Hreg; revert Hreg;
    destruct (add_subscriber "A@Example.com" PyNone Sample.started)
      as [response st'];
    intros (-> & _ & Hsubs & _ & Hsaves & Hwrite); cbn [fst snd].
  - reflexivity.
  - exact Hsubs.
  - exact Hsaves.
  - exact (proj1 (Hwrite Hwf Hw eq_refl)).
Defined.

Lemma add_subscriber_rejects_duplicate_witness :
  dict_wf (subscribers Sample.started) ∧
  validate_email "A@Example.com" = ValidatedEmail "A@example.com" ∧
  validate_email "a@example.com" = ValidatedEmail "a@example.com" ∧
  lower "a@example.com" = lower "A@example.com" ∧
  add_subscriber "a@example.com" PyNone Sample.registered =
    ((PyDict [("error", PyStr "Email already exists")], 409),
     Sample.registered) ∧
  dict_keys (subscribers Sample.registered) = ["a@example.com"].
Proof.
  assert (Hwf : dict_wf (subscribers Sample.started)).
  { vm_compute. apply NoDup_nil_2. }
  assert (Hvalid1 : validate_email "A@Example.com" =
                    ValidatedEmail "A@example.com") by reflexivity.
  assert (Hvalid2 : validate_email "a@example.com" =
                    ValidatedEmail "a@example.com") by reflexivity.
  assert (Hsame : lower "a@example.com" = lower "A@example.com")
    by reflexivity.
  split; [exact Hwf|]. split; [exact Hvalid1|]. split; [exact Hvalid2|].
  split; [exact Hsame|]. split; [|reflexivity].
  exact (proj1 (add_subscriber_rejects_duplicate Sample.started
                  "A@Example.com" "A@example.com" "a@example.com"
                  "a@example.com" PyNone PyNone Hwf Hvalid1 Hvalid2 Hsame)).
Defined.

(** C3 as stated fails: the third record of the index holds the token,
    the call succeeds, and that record is still pending and unverified
    afterwards, because the second record holds the token too. *)
Lemma verify_subscriber_later_holder_untouched :
  ("z@example.com", Sample.member "z@example.com" "t1")
    ∈ subscribers Sample.twins ∧
  verification_token (Sample.member "z@example.com" "t1") = PyStr "t1" ∧
  (verify_subscriber "t1" Sample.twins).1 =
    (PyDict [("message", PyStr "Email verified successfully")], 200) ∧
  ∃ s, dict_get "z@example.com"
         (subscribers (verify_subscriber "t1" Sample.twins).2) = Some s ∧
       verified s = PyBool false ∧ status s = PyStr "pending".
Proof.
  split.
  { vm_compute. do 2 apply list_elem_of_further. apply list_elem_of_here. }
  split; [reflexivity|]. split; [reflexivity|].
  eexists. split; [reflexivity|]. split; reflexivity.
Qed.

Lemma verify_subscriber_activates_witness :
  ("a@example.com", Sample.pending_record) ∈ subscribers Sample.registered ∧
  verification_token Sample.pending_record = PyStr Sample.token ∧
  dict_wf (subscribers Sample.registered) ∧
  (∀ f, disk Sample.registered !! storage_file Sample.registered = Some f →
        can_write f = true) ∧
  (verify_subscriber Sample.token Sample.registered).1 =
    (PyDict [("message", PyStr "Email verified successfully")], 200) ∧
  subscribers (verify_subscriber Sample.token Sample.registered).2 =
    [("a@example.com", verified_at (Sample.clock 3) Sample.pending_record)] ∧
  trace (verify_subscriber Sample.token Sample.registered).2 =
    trace Sample.registered ++
    [Wrote Sample.EMAILS_FILE
       (json_dump
          (index_document
             [("a@example.com",
               verified_at (Sample.clock 3) Sample.pending_record)]))].
Proof.
  assert (Hin : ("a@example.com", Sample.pending_record) ∈
                subscribers Sample.registered).
  { vm_compute. apply list_elem_of_here. }
  assert (Hs : verification_token Sample.pending_record =
               PyStr Sample.token) by reflexivity.
  assert (Hwf : dict_wf (subscribers Sample.registered)).
  { vm_compute. apply NoDup_singleton. }
  assert (Hw : ∀ f,
            disk Sample.registered !! storage_file Sample.registered
              = Some f → can_write f = true).
  { intros f Hf. vm_compute in Hf. by injection Hf as <-. }
  split_and!; [done..| | |].
  all: destruct (verify_subscriber_activates Sample.registered Sample.token
                   "a@example.com" Sample.pending_record Hin Hs)
         as (pre & k & s & post & Hsplit & _ & _ & _ & Hrest);
    cbv zeta in Hrest; destruct Hrest as (Hcall & _); revert Hcall;
    destruct (verify_subscriber Sample.token Sample.registered)
      as [response st'];
    intros (-> & _ & Hsubs & _ & _ & Hwrite); cbn [fst snd].
  - reflexivity.
  - rewrite Hsubs. vm_compute in Hsplit.
    destruct pre as [|x pre]; [|by destruct pre].
    by injection Hsplit as <- <- <-.
  - destruct (Hwrite Hwf Hw eq_refl) as [Htrace _].
    rewrite Htrace. vm_compute in Hsplit.
    destruct pre as [|x pre]; [|by destruct pre].
    by injection Hsplit as <- <- <-.
Defined.

Lemma verify_subscriber_unknown_token_witness :
  token_free "unknown" (subscribers Sample.registered) ∧
  verify_subscriber "unknown" Sample.registered =
    ((PyDict [("error", PyStr "Invalid verification token")], 400),
     Sample.registered).
Proof.
  assert (Hfree : token_free "unknown" (subscribers Sample.registered)).
  { vm_compute. repeat constructor. }
  split; [exact Hfree|].
  exact (verify_subscriber_unknown_token Sample.registered "unknown" Hfree).
Defined.

(** C5 as stated fails: both calls succeed, and the record after the
    second call differs from the record after the first one. *)
Lemma verify_subscriber_twice_differs :
  let (r1, st1) := verify_subscriber Sample.token Sample.registered in
  let (r2, st2) := verify_subscriber Sample.token st1 in
  r1.2 = 200 ∧ r2.2 = 200 ∧
  ∃ s1 s2, subscribers st1 = [("a@example.com", s1)] ∧
           subscribers st2 = [("a@example.com", s2)] ∧ s1 ≠ s2.
Proof.
  vm_compute. split; [reflexivity|]. split; [reflexivity|].
  do 2 eexists. split; [reflexivity|]. split; [reflexivity|]. intros [=].
Qed.

Lemma verify_subscriber_twice_witness :
  ("a@example.com", Sample.pending_record) ∈ subscribers Sample.registered ∧
  verification_token Sample.pending_record = PyStr Sample.token ∧
  dict_wf (subscribers Sample.registered) ∧
  (∀ f, disk Sample.activated !! storage_file Sample.activated = Some f →
        can_write f = true) ∧
  (verify_subscriber Sample.token Sample.registered).1.2 = 200 ∧
  (verify_subscriber Sample.token Sample.activated).1.2 = 200 ∧
  report_field "active"
    (get_subscriber_stats
       (verify_subscriber Sample.token Sample.activated).2).1 =
  report_field "active" (get_subscriber_stats Sample.activated).1 ∧
  trace (verify_subscriber Sample.token Sample.activated).2 =
    trace Sample.activated ++
    [Wrote (storage_file Sample.activated)
       (json_dump
          (index_document
             (subscribers
                (verify_subscriber Sample.token Sample.activated).2)))].
Proof.
  assert (Hin : ("a@example.com", Sample.pending_record) ∈
                subscribers Sample.registered).
  { vm_compute. apply list_elem_of_here. }
  assert (Hs : verification_token Sample.pending_record =
               PyStr Sample.token) by reflexivity.
  assert (Hwf : dict_wf (subscribers Sample.registered)).
  { vm_compute. apply NoDup_singleton. }
  assert (Hw : ∀ f,
            disk Sample.activated !! storage_file Sample.activated = Some f →
            can_write f = true).
  { intros f Hf. vm_compute in Hf. by injection Hf as <-. }
  split; [exact Hin|]. split; [exact Hs|]. split; [exact Hwf|].
  split; [exact Hw|].
  pose proof (verify_subscriber_twice Sample.registered Sample.token
                "a@example.com" Sample.pending_record Hin Hs) as Htwice.
  unfold Sample.activated in *.
  destruct (verify_subscriber Sample.token Sample.registered) as [r1 st1].
  cbn [fst snd] in *.
  destruct (verify_subscriber Sample.token st1) as [r2 st2].
  destruct Htwice as (-> & -> & _ & _ & Hstats & _ & Hwrite). cbn [fst snd].
  split; [reflexivity|]. split; [reflexivity|]. split.
  - apply Hstats. apply list_elem_of_further, list_elem_of_here.
  - cbv zeta in Hwrite. exact (proj1 (Hwrite Hwf Hw eq_refl)).
Defined.

(** C6 as stated fails: the report has no field named generated_at; the
    clock reading is under last_updated. *)
Lemma get_subscriber_stats_no_generated_at :
  report_field "generated_at" (get_subscriber_stats Sample.registered).1 = None ∧
  report_field "last_updated" (get_subscriber_stats Sample.registered).1 =
    Some (PyStr (Sample.clock 3)) ∧
  report_field "total" (get_subscriber_stats Sample.registered).1 =
    Some (PyInt 1).
Proof. split_and!; reflexivity. Qed.

Lemma get_subscriber_stats_report_witness :
  Forall (λ s, is_bool (verified s) = true)
         (dict_values (subscribers Sample.registered)) ∧
  subscribers Sample.started = [] ∧
  (get_subscriber_stats Sample.registered).1 =
    PyDict [("total", PyInt 1); ("active", PyInt 0); ("unverified", PyInt 1);
            ("last_updated", PyStr (Sample.clock 3))] ∧
  length (filter (λ s, truthy (verified s) = false)
                 (dict_values (subscribers Sample.registered))) =
  length (filter (λ s, verified s = PyBool false)
                 (dict_values (subscribers Sample.registered))) ∧
  ∃ t, (get_subscriber_stats Sample.started).1 =
       PyDict [("total", PyInt 0); ("active", PyInt 0);
               ("unverified", PyInt 0); ("last_updated", PyStr t)].
Proof.
  assert (Hbool : Forall (λ s, is_bool (verified s) = true)
                         (dict_values (subscribers Sample.registered))).
  { vm_compute. repeat constructor. }
  assert (Hempty : subscribers Sample.started = []) by reflexivity.
  split; [exact Hbool|]. split; [exact Hempty|].
  destruct (get_subscriber_stats_report Sample.registered)
    as (Hreport & _ & Htyped & _).
  destruct (get_subscriber_stats_report Sample.started) as (_ & _ & _ & Hzero).
  split; [reflexivity|]. split; [|exact (Hzero Hempty)].
  by rewrite (Htyped Hbool).
Defined.

(** C7 as stated fails: metadata with a tuple is written by [json.dump]
    as a list, so the manager built on the saved file, which loads it
    without an error, holds a list where the saved index had the
    tuple. *)
Lemma save_load_tuple_differs :
  let saved := (save_subscribers Cases.tagged).2 in
  let loaded :=
    (SubscriberManager_init Sample.EMAILS_FILE
       (Cases.restarted_on saved)).2 in
  (∃ text, trace loaded = [Wrote Sample.EMAILS_FILE text]) ∧
  ∃ s s',
    subscribers Cases.tagged = [("x@example.com", s)] ∧
    subscribers loaded = [("x@example.com", s')] ∧
    metadata s = PyDict [("tags", PyTuple [PyStr "a"; PyStr "b"])] ∧
    metadata s' = PyDict [("tags", PyList [PyStr "a"; PyStr "b"])] ∧
    subscribers loaded ≠ subscribers Cases.tagged.
Proof.
  vm_compute. split; [by eexists|].
  do 2 eexists. split_and!; [reflexivity..|]. intros [=].
Qed.

Lemma save_load_roundtrip_witness :
  dict_wf (subscribers Sample.activated) ∧
  (∀ f, disk Sample.activated !! storage_file Sample.activated = Some f →
        can_write f = true ∧ can_read f = true) ∧
  os_write (length (trace Sample.activated)) (storage_file Sample.activated)
           (json_dump (index_document (subscribers Sample.activated))) =
    Written ∧
  json_load (json_dump (index_document (subscribers Sample.activated))) =
    Some (index_document (subscribers Sample.activated)) ∧
  subscribers
    (SubscriberManager_init Sample.EMAILS_FILE
       (Cases.restarted_on (save_subscribers Sample.activated).2)).2 =
  subscribers Sample.activated.
Proof.
  assert (Hwf : dict_wf (subscribers Sample.activated)).
  { vm_compute. apply NoDup_singleton. }
  assert (Hperm : ∀ f,
            disk Sample.activated !! storage_file Sample.activated = Some f →
            can_write f = true ∧ can_read f = true).
  { intros f Hf. vm_compute in Hf. injection Hf as <-. split; reflexivity. }
  assert (Hos :
    os_write (length (trace Sample.activated))
             (storage_file Sample.activated)
             (json_dump (index_document (subscribers Sample.activated))) =
    Written) by reflexivity.
  assert (Hjson :
            json_load (json_dump
                         (index_document (subscribers Sample.activated))) =
            Some (index_document (subscribers Sample.activated))).
  { vm_compute. reflexivity. }
  split; [exact Hwf|]. split; [exact Hperm|]. split; [exact Hos|].
  split; [exact Hjson|].
  exact (proj1 (save_load_roundtrip Sample.activated "" [] Hwf Hperm Hos
                  Hjson)).
Defined.

Lemma load_subscribers_absent_or_corrupt_witness :
  disk Sample.boot !! Sample.EMAILS_FILE = None ∧
  disk (Sample.on_disk Sample.garbled) !! Sample.EMAILS_FILE =
    Some Sample.garbled ∧
  corrupt Sample.garbled JSONDecodeError ∧
  disk (Sample.on_disk Sample.truncated) !! Sample.EMAILS_FILE =
    Some Sample.truncated ∧
  corrupt Sample.truncated TypeError ∧
  SubscriberManager_init Sample.EMAILS_FILE Sample.boot =
    (tt, mkState Sample.EMAILS_FILE [] ∅ [] 0) ∧
  subscribers
    (SubscriberManager_init Sample.EMAILS_FILE
       (Sample.on_disk Sample.garbled)).2 = [] ∧
  trace (SubscriberManager_init Sample.EMAILS_FILE
           (Sample.on_disk Sample.garbled)).2 =
    [LoggedError "Error loading subscribers" JSONDecodeError] ∧
  trace (SubscriberManager_init Sample.EMAILS_FILE
           (Sample.on_disk Sample.truncated)).2 =
    [LoggedError "Error loading subscribers" TypeError].
Proof.
  assert (Habsent : disk Sample.boot !! Sample.EMAILS_FILE = None)
    by reflexivity.
  assert (Hgarbled : disk (Sample.on_disk Sample.garbled)
                       !! Sample.EMAILS_FILE = Some Sample.garbled)
    by reflexivity.
  assert (Hno_json : corrupt Sample.garbled JSONDecodeError).
  { apply corrupt_no_json; reflexivity. }
  assert (Htruncated : disk (Sample.on_disk Sample.truncated)
                         !! Sample.EMAILS_FILE = Some Sample.truncated)
    by reflexivity.
  assert (Hbad : corrupt Sample.truncated TypeError).
  { eapply corrupt_bad_record; [reflexivity|vm_compute; reflexivity|].
    apply Exists_cons_hd. cbn [snd]. intros (kw & [= <-] & Hkeys).
    assert (Hk : "status" ∈ dict_keys [("email", PyStr "x@example.com")]).
    { apply Hkeys. vm_compute. do 2 apply list_elem_of_further.
      apply list_elem_of_here. }
    vm_compute in Hk. apply list_elem_of_singleton in Hk. discriminate Hk. }
  split_and!; [done..| | | |].
  - exact (proj1 (load_subscribers_absent_or_corrupt Sample.boot
                    Sample.EMAILS_FILE) Habsent).
  - destruct (load_subscribers_absent_or_corrupt
                (Sample.on_disk Sample.garbled) Sample.EMAILS_FILE)
      as (_ & Hcorrupt & _).
    by rewrite (Hcorrupt _ _ Hgarbled Hno_json).
  - destruct (load_subscribers_absent_or_corrupt
                (Sample.on_disk Sample.garbled) Sample.EMAILS_FILE)
      as (_ & Hcorrupt & _).
    by rewrite (Hcorrupt _ _ Hgarbled Hno_json).
  - destruct (load_subscribers_absent_or_corrupt
                (Sample.on_disk Sample.truncated) Sample.EMAILS_FILE)
      as (_ & Hcorrupt & _).
    by rewrite (Hcorrupt _ _ Htruncated Hbad).
Defined.

Lemma reachable_verified_active_witness :
  reachable Sample.activated ∧
  ("a@example.com", verified_at (Sample.clock 3) Sample.pending_record)
    ∈ subscribers Sample.activated ∧
  (verified (verified_at (Sample.clock 3) Sample.pending_record) =
     PyBool true →
   status (verified_at (Sample.clock 3) Sample.pending_record) =
     PyStr "active").
Proof.
  assert (Hreach : reachable Sample.activated).
  { apply reachable_verify, reachable_add, reachable_empty. reflexivity. }
  assert (Hin : ("a@example.com",
                 verified_at (Sample.clock 3) Sample.pending_record)
                ∈ subscribers Sample.activated).
  { vm_compute. apply list_elem_of_here. }
  split; [exact Hreach|]. split; [exact Hin|].
  exact (proj1 (reachable_verified_active Sample.activated _ _ Hreach Hin)).
Defined.

Lemma verify_subscriber_first_match_only_witness :
  (1 < 2)%nat ∧
  subscribers Sample.twins !! 1%nat =
    Some ("y@example.com", Sample.member "y@example.com" "t1") ∧
  subscribers Sample.twins !! 2%nat =
    Some ("z@example.com", Sample.member "z@example.com" "t1") ∧
  token_free "t1" (take 1 (subscribers Sample.twins)) ∧
  subscribers (verify_subscriber "t1" Sample.twins).2 !! 1%nat =
    Some ("y@example.com",
          verified_at (Sample.clock 1)
                      (Sample.member "y@example.com" "t1")) ∧
  subscribers (verify_subscriber "t1" Sample.twins).2 !! 2%nat =
    Some ("z@example.com", Sample.member "z@example.com" "t1") ∧
  subscribers (verify_subscriber "t1" Sample.twins).2 !! 0%nat =
    subscribers Sample.twins !! 0%nat.
Proof.
  assert (Hlt : (1 < 2)%nat) by lia.
  assert (Hfree : token_free "t1" (take 1 (subscribers Sample.twins))).
  { vm_compute. repeat constructor. }
  destruct (verify_subscriber_first_match_only Sample.twins "t1" 1 2
              "y@example.com" "z@example.com"
              (Sample.member "y@example.com" "t1")
              (Sample.member "z@example.com" "t1")
              Hlt eq_refl eq_refl eq_refl eq_refl Hfree)
    as (Hfirst & Hsecond & Hrest & _).
  split_and!; [done..|exact Hfirst|exact Hsecond|].
  apply Hrest. lia.
Defined.

End Examples.

(** * Further properties of the manager *)

Section Outcomes.
Context `{Externals}.

(** ** The answers of [add_subscriber] *)

(** X1: [add_subscriber] answers 400, 409 or 201: 400 exactly when the
    validator rejects the address (even if the address is a key of the
    index), 409 exactly when the address is valid and its lower-cased
    normal form is a key, 201 otherwise.  Unless the answer is 201 the
    whole state is as before; with 201 the index has one record more. *)
Theorem add_subscriber_outcomes (st : State) (addr : string)
    (metadata : pyobj) :
  let (response, st') := add_subscriber addr metadata st in
  (response.2 = 400 ∨ response.2 = 409 ∨ response.2 = 201) ∧
  (response.2 = 400 ↔ ∃ msg, validate_email addr = EmailNotValidError msg) ∧
  (response.2 = 409 ↔
   ∃ norm, validate_email addr = ValidatedEmail norm ∧
           lower norm ∈ dict_keys (subscribers st)) ∧
  (response.2 ≠ 201 → st' = st) ∧
  (response.2 = 201 → length (subscribers st') = S (length (subscribers st))).
Proof.
  destruct (validate_email addr) as [norm|msg] eqn:Hvalid.
  - destruct (dict_contains (lower norm) (subscribers st)) eqn:Hkey.
    + rewrite (add_subscriber_duplicate st addr norm) by done. cbn [snd].
      apply dict_contains_true in Hkey.
      split_and!; [auto|split; [done|by intros [? [=]]]| |done..].
      split; [by exists norm|done].
    + rewrite (add_subscriber_new st addr norm) by done.
      pose proof (save_subscribers_frame
        (mkState (storage_file st)
           (subscribers st ++
              [(lower norm, new_subscriber norm metadata (ticks st))])
           (disk st) (trace st) (S (S (S (ticks st)))))) as (_ & Hsubs & _).
      destruct (save_subscribers _) as [[] st']. cbn [fst snd] in *.
      cbn [subscribers] in Hsubs. apply dict_contains_false in Hkey.
      split_and!; [auto|split; [done|by intros [? [=]]]| |done|].
      * split; [done|]. by intros (norm' & [= <-] & Hin).
      * intros _. rewrite Hsubs, length_app. cbn [length]. lia.
  - rewrite (add_subscriber_invalid st addr msg) by done. cbn [snd].
    split_and!; [auto|split; [by exists msg|done]| |done..].
    split; [done|]. by intros (norm & [=] & _).
Qed.

(** ** A backing file that cannot be written *)

Lemma save_subscribers_refused (st : State) (f : File) :
  disk st !! storage_file st = Some f →
  can_write f = false →
  save_subscribers st =
    (tt, mkState (storage_file st) (subscribers st) (disk st)
                 (trace st ++ [WriteRefused (storage_file st)] ++
                    [LoggedError "Error saving subscribers" OSError])
                 (ticks st)).
Proof.
  intros Hfile Hw.
  unfold save_subscribers, bind, get_self, write_file, logging_error, emit,
    ret.
  lazy beta iota. rewrite Hfile, Hw. cbn [snd storage_file subscribers disk
    trace ticks]. by rewrite <-app_assoc.
Qed.

(** X2: when the backing file exists and cannot be opened for writing,
    a registration of a new valid address still answers 201 and the
    record is in the index of the manager; the disk is as before, and
    the trace shows the refused write and the logged error. *)
Theorem add_subscriber_save_refused (st : State) (addr norm : string)
    (metadata : pyobj) (f : File) :
  validate_email addr = ValidatedEmail norm →
  dict_contains (lower norm) (subscribers st) = false →
  disk st !! storage_file st = Some f →
  can_write f = false →
  let (response, st') := add_subscriber addr metadata st in
  response =
    (PyDict [("message", PyStr "Subscriber added successfully")], 201) ∧
  subscribers st' =
    subscribers st ++ [(lower norm, new_subscriber norm metadata (ticks st))] ∧
  disk st' = disk st ∧
  trace st' =
    trace st ++ [WriteRefused (storage_file st);
                 LoggedError "Error saving subscribers" OSError].
Proof.
  intros Hvalid Hfresh Hfile Hw.
  rewrite (add_subscriber_new st addr norm) by done.
  by rewrite (save_subscribers_refused _ f).
Qed.

(** ** Restarting the program *)

(** A manager built, whatever the process held before, on the file a
    well-formed index was just saved to. *)
Lemma init_after_save (st : State) (path0 : string) (junk : dict Subscriber) :
  dict_wf (subscribers st) →
  (∀ f, disk st !! storage_file st = Some f →
        can_write f = true ∧ can_read f = true) →
  os_write (length (trace st)) (storage_file st)
           (json_dump (index_document (subscribers st))) = Written →
  json_load (json_dump (index_document (subscribers st))) =
    Some (index_document (subscribers st)) →
  let saved := (save_subscribers st).2 in
  subscribers
    (SubscriberManager_init (storage_file st)
       (mkState path0 junk (disk saved) (trace saved) (ticks saved))).2 =
  subscribers st.
Proof.
  intros Hwf Hperm Hos Hjson saved.
  pose proof (load_after_save st [] Hwf Hperm Hos Hjson) as Hload.
  cbv zeta in Hload. fold saved in Hload.
  unfold SubscriberManager_init, bind, set_storage_file, set_subscribers.
  cbn [storage_file subscribers disk trace ticks]. by rewrite Hload.
Qed.

Lemma init_after_register (st : State) (addr : string) (metadata : pyobj)
    (path0 : string) (junk : dict Subscriber) :
  dict_wf (subscribers st) →
  (∀ f, disk st !! storage_file st = Some f →
        can_write f = true ∧ can_read f = true) →
  (add_subscriber addr metadata st).1.2 = 201 →
  let st' := (add_subscriber addr metadata st).2 in
  let text := json_dump (index_document (subscribers st')) in
  os_write (length (trace st)) (storage_file st) text = Written →
  json_load text = Some (index_document (subscribers st')) →
  subscribers
    (SubscriberManager_init (storage_file st)
       (mkState path0 junk (disk st') (trace st') (ticks st'))).2 =
  subscribers st'.
Proof.
  intros Hwf Hperm Hcode st' text. subst st' text. revert Hcode.
  destruct (validate_email addr) as [norm|msg] eqn:Hvalid.
  - destruct (dict_contains (lower norm) (subscribers st)) eqn:Hkey.
    + by rewrite (add_subscriber_duplicate st addr norm).
    + rewrite (add_subscriber_new st addr norm) by done. cbn [fst snd].
      intros _.
      set (inserted := mkState (storage_file st)
         (subscribers st ++
            [(lower norm, new_subscriber norm metadata (ticks st))])
         (disk st) (trace st) (S (S (S (ticks st))))).
      destruct (save_subscribers_frame inserted) as (_ & Hsubs & _).
      rewrite Hsubs. intros Hos Hjson.
      apply (init_after_save inserted); [|done..].
      cbn [inserted subscribers]. apply dict_contains_false in Hkey.
      rewrite <-(dict_set_fresh (lower norm)) by done. by apply dict_set_wf.
  - by rewrite (add_subscriber_invalid st addr msg).
Qed.

(** X3: when a registration answers 201, the backing file can be read
    and the write goes through, a manager built afterwards on the same
    file, whatever the process held before, holds the index the
    registration left, the new record included. *)
Theorem restart_after_register (st : State) (addr : string)
    (metadata : pyobj) (path0 : string) (junk : dict Subscriber) :
  dict_wf (subscribers st) →
  (∀ f, disk st !! storage_file st = Some f →
        can_write f = true ∧ can_read f = true) →
  (add_subscriber addr metadata st).1.2 = 201 →
  let st' := (add_subscriber addr metadata st).2 in
  let text := json_dump (index_document (subscribers st')) in
  os_write (length (trace st)) (storage_file st) text = Written →
  json_load text = Some (index_document (subscribers st')) →
  subscribers
    (SubscriberManager_init (storage_file st)
       (mkState path0 junk (disk st') (trace st') (ticks st'))).2 =
  subscribers st'.
Proof. apply init_after_register. Qed.

(** X4: when a verification answers 200, the backing file can be read
    and the write goes through, a manager built afterwards on the same
    file, whatever the process held before, holds the index the
    verification left: the record is still active. *)
Theorem restart_after_verify (st : State) (token : string)
    (path0 : string) (junk : dict Subscriber) :
  dict_wf (subscribers st) →
  (∀ f, disk st !! storage_file st = Some f →
        can_write f = true ∧ can_read f = true) →
  (verify_subscriber token st).1.2 = 200 →
  let st' := (verify_subscriber token st).2 in
  let text := json_dump (index_document (subscribers st')) in
  os_write (length (trace st)) (storage_file st) text = Written →
  json_load text = Some (index_document (subscribers st')) →
  subscribers
    (SubscriberManager_init (storage_file st)
       (mkState path0 junk (disk st') (trace st') (ticks st'))).2 =
  subscribers st'.
Proof.
  intros Hwf Hperm Hcode st' text. subst st' text. revert Hcode.
  destruct (first_match_split token (subscribers st))
    as [Hfree|(pre & k & s & post & Hsubs & Hfree & Hs)].
  - by rewrite verify_subscriber_miss.
  - rewrite (verify_subscriber_hit st token pre post k s) by done.
    cbn [fst snd]. intros _.
    set (updated := mkState (storage_file st)
       (pre ++ (k, verified_at (isoformat_now (ticks st)) s) :: post)
       (disk st) (trace st) (S (ticks st))).
    destruct (save_subscribers_frame updated) as (_ & Hsubs' & _).
    rewrite Hsubs'. intros Hos Hjson.
    apply (init_after_save updated); [|done..].
    cbn [updated subscribers]. rewrite Hsubs in Hwf.
    by apply (dict_wf_middle pre post k s).
Qed.

(** X5: a registration that answered 201 is still known after a
    restart: on a manager built afterwards on the same file, whatever
    the process held before, a call with any valid address whose normal
    form lower-cases to the same key answers 409 and changes nothing. *)
Theorem duplicate_after_restart (st : State)
    (addr1 norm1 addr2 norm2 : string) (metadata1 metadata2 : pyobj)
    (path0 : string) (junk : dict Subscriber) :
  dict_wf (subscribers st) →
  (∀ f, disk st !! storage_file st = Some f →
        can_write f = true ∧ can_read f = true) →
  validate_email addr1 = ValidatedEmail norm1 →
  validate_email addr2 = ValidatedEmail norm2 →
  lower norm2 = lower norm1 →
  (add_subscriber addr1 metadata1 st).1.2 = 201 →
  let st' := (add_subscriber addr1 metadata1 st).2 in
  let text := json_dump (index_document (subscribers st')) in
  os_write (length (trace st)) (storage_file st) text = Written →
  json_load text = Some (index_document (subscribers st')) →
  let restarted :=
    (SubscriberManager_init (storage_file st)
       (mkState path0 junk (disk st') (trace st') (ticks st'))).2 in
  add_subscriber addr2 metadata2 restarted =
    ((PyDict [("error", PyStr "Email already exists")], 409), restarted).
Proof.
  intros Hwf Hperm Hvalid1 Hvalid2 Hsame Hcode st' text Hos Hjson restarted.
  apply (add_subscriber_duplicate restarted addr2 norm2); [done|].
  apply dict_contains_true. unfold restarted, st'.
  rewrite (init_after_register st addr1 metadata1) by done.
  rewrite Hsame. by apply (add_subscriber_key st addr1 norm1 metadata1).
Qed.

(** ** What the operations keep *)

Lemma add_subscriber_keeps_prefix (st : State) (addr : string)
    (metadata : pyobj) :
  subscribers st `prefix_of` subscribers (add_subscriber addr metadata st).2.
Proof.
  destruct (validate_email addr) as [norm|msg] eqn:Hvalid.
  - destruct (dict_contains (lower norm) (subscribers st)) eqn:Hkey.
    + by rewrite (add_subscriber_duplicate st addr norm).
    + rewrite (add_subscriber_new st addr norm) by done. cbn [snd].
      destruct (save_subscribers_frame
        (mkState (storage_file st)
           (subscribers st ++
              [(lower norm, new_subscriber norm metadata (ticks st))])
           (disk st) (trace st) (S (S (S (ticks st))))))
        as (_ & -> & _).
      cbn [subscribers]. by apply prefix_app_r.
  - by rewrite (add_subscriber_invalid st addr msg).
Qed.

(** X6: [add_subscriber] never removes, reorders or rewrites a record:
    the index before the call is a prefix of the index after it. *)
Theorem add_subscriber_keeps_records (st : State) (addr : string)
    (metadata : pyobj) :
  subscribers st `prefix_of` subscribers (add_subscriber addr metadata st).2.
Proof. apply add_subscriber_keeps_prefix. Qed.

Lemma verify_related_refl (item : string * Subscriber) :
  verify_related item item.
Proof. unfold verify_related. by split_and!; [..|left]. Qed.

Lemma verify_subscriber_related (st : State) (token : string) :
  Forall2 verify_related (subscribers st)
          (subscribers (verify_subscriber token st).2).
Proof.
  destruct (first_match_split token (subscribers st))
    as [Hfree|(pre & k & s & post & Hsubs & Hfree & Hs)].
  - rewrite verify_subscriber_miss by done. cbn [snd].
    apply Forall2_same_length_lookup_2; [done|].
    intros i x y Hx Hy. rewrite Hx in Hy. injection Hy as <-.
    apply verify_related_refl.
  - rewrite (verify_subscriber_hit st token pre post k s) by done.
    cbn [snd].
    destruct (save_subscribers_frame
      (mkState (storage_file st)
         (pre ++ (k, verified_at (isoformat_now (ticks st)) s) :: post)
         (disk st) (trace st) (S (ticks st)))) as (_ & -> & _).
    cbn [subscribers]. rewrite Hsubs. apply Forall2_app.
    + apply Forall2_same_length_lookup_2; [done|].
      intros i x y Hx Hy. rewrite Hx in Hy. injection Hy as <-.
      apply verify_related_refl.
    + constructor.
      * unfold verify_related. cbn [fst snd]. split_and!; [done..|by right].
      * apply Forall2_same_length_lookup_2; [done|].
        intros i x y Hx Hy. rewrite Hx in Hy. injection Hy as <-.
        apply verify_related_refl.
Qed.

(** X7: [verify_subscriber] keeps every record at its place and under
    its key, with its email, joined_date, verification_token and
    metadata; a record is either untouched or active and verified
    afterwards. *)
Theorem verify_subscriber_keeps_fields (st : State) (token : string) :
  Forall2 (λ old new,
             new.1 = old.1 ∧
             email new.2 = email old.2 ∧
             joined_date new.2 = joined_date old.2 ∧
             verification_token new.2 = verification_token old.2 ∧
             metadata new.2 = metadata old.2 ∧
             (new.2 = old.2 ∨
              (status new.2 = PyStr "active" ∧ verified new.2 = PyBool true)))
          (subscribers st) (subscribers (verify_subscriber token st).2).
Proof. apply verify_subscriber_related. Qed.

(** X8: a record that is active and verified stays at its place, active
    and verified, whatever call of [add_subscriber] or
    [verify_subscriber] follows. *)
Theorem active_is_stable (st : State) (n : nat) (k : string) (s : Subscriber) :
  subscribers st !! n = Some (k, s) →
  status s = PyStr "active" →
  verified s = PyBool true →
  (∀ addr metadata,
     subscribers (add_subscriber addr metadata st).2 !! n = Some (k, s)) ∧
  (∀ token, ∃ s',
     subscribers (verify_subscriber token st).2 !! n = Some (k, s') ∧
     status s' = PyStr "active" ∧ verified s' = PyBool true).
Proof.
  intros Hn Hstatus Hverified. split.
  - intros addr metadata.
    destruct (add_subscriber_keeps_prefix st addr metadata) as [more ->].
    by apply lookup_app_l_Some.
  - intros token.
    pose proof (verify_subscriber_related st token) as Hrel.
    destruct (Forall2_lookup_l _ _ _ _ _ Hrel Hn) as ([k' s'] & Hn' & Hitem).
    destruct Hitem as (Hk & _ & _ & _ & _ & Hs'). cbn [fst snd] in *.
    subst k'. exists s'. split; [done|].
    destruct Hs' as [->|[? ?]]; done.
Qed.

(** ** The keys of the index *)

Lemma reachable_keyed (st : State) :
  reachable st →
  Forall (λ item,
            email item.2 = PyStr item.1 ∧
            ∃ addr norm, validate_email addr = ValidatedEmail norm ∧
                         item.1 = lower norm)
         (subscribers st).
Proof.
  induction 1 as [st Hempty|st addr metadata _ IH|st token _ IH].
  - rewrite Hempty. constructor.
  - destruct (validate_email addr) as [norm|msg] eqn:Hvalid.
    + destruct (dict_contains (lower norm) (subscribers st)) eqn:Hkey.
      * by rewrite (add_subscriber_duplicate st addr norm).
      * rewrite (add_subscriber_new st addr norm) by done. cbn [snd].
        destruct (save_subscribers_frame
          (mkState (storage_file st)
             (subscribers st ++
                [(lower norm, new_subscriber norm metadata (ticks st))])
             (disk st) (trace st) (S (S (S (ticks st))))))
          as (_ & -> & _).
        cbn [subscribers]. apply Forall_app. split; [done|].
        constructor; [|constructor]. cbn [fst snd new_subscriber email].
        split; [done|]. by exists addr, norm.
    + by rewrite (add_subscriber_invalid st addr msg).
  - pose proof (verify_subscriber_related st token) as Hrel.
    apply Forall_forall. intros new Hnew.
    apply list_elem_of_lookup in Hnew as [i Hi].
    destruct (Forall2_lookup_r _ _ _ _ _ Hrel Hi) as (old & Hold & Hitem).
    destruct Hitem as (Hk & He & _).
    rewrite Forall_forall in IH.
    destruct (IH old) as [He' Hl]; [by eapply list_elem_of_lookup_2|].
    rewrite Hk, He. done.
Qed.

(** X9: in every state reached from an empty index by calls of
    [add_subscriber] and [verify_subscriber], a record is stored under
    the address in its email field, that key is the lower-cased normal
    form of an address the validator accepted, and no other record has
    the key. *)
Theorem reachable_keys (st : State) (k : string) (s : Subscriber) :
  reachable st →
  (k, s) ∈ subscribers st →
  email s = PyStr k ∧
  (∃ addr norm, validate_email addr = ValidatedEmail norm ∧ k = lower norm) ∧
  length (filter (λ item, item.1 = k) (subscribers st)) = 1%nat.
Proof.
  intros Hreach Hin.
  pose proof (reachable_keyed st Hreach) as Hkeyed.
  rewrite Forall_forall in Hkeyed. destruct (Hkeyed _ Hin) as [He Hl].
  split_and!; [done..|].
  apply dict_wf_once; [by apply reachable_wf|].
  unfold dict_keys. apply list_elem_of_fmap. by exists (k, s).
Qed.

(** ** The counts of the report *)

Lemma lifecycle_counts (d : dict Subscriber) :
  Forall (λ item, lifecycle item.2) d →
  (count_active d + count_unverified d)%nat = length d.
Proof.
  induction 1 as [|[k s] d Hs _ IH]; [done|].
  rewrite count_active_cons, count_unverified_cons. cbn [length].
  cbn [snd] in Hs. destruct Hs as [[-> ->]|[-> ->]]; cbn.
  - rewrite bool_decide_eq_false_2 by done. lia.
  - rewrite bool_decide_eq_true_2 by done. lia.
Qed.

(** X10: in every state reached from an empty index by calls of
    [add_subscriber] and [verify_subscriber], the report of
    [get_subscriber_stats] has total = active + unverified. *)
Theorem reachable_stats_balance (st : State) :
  reachable st →
  ∃ (a u : Z) (t : string),
    (get_subscriber_stats st).1 =
      PyDict [("total", PyInt (a + u)); ("active", PyInt a);
              ("unverified", PyInt u); ("last_updated", PyStr t)].
Proof.
  intros Hreach. rewrite get_subscriber_stats_eq. cbn [fst].
  pose proof (lifecycle_counts _ (reachable_lifecycle st Hreach)) as Hsum.
  exists (Z.of_nat (count_active (subscribers st))),
         (Z.of_nat (count_unverified (subscribers st))),
         (isoformat_now (ticks st)).
  by rewrite <-Nat2Z.inj_add, Hsum.
Qed.

End Outcomes.

Section Decoding.
Context `{Externals}.

(** ** Records read from the file *)

Lemma Subscriber_init_gets (kw : dict pyobj) (s : Subscriber) :
  Subscriber_init (PyDict kw) = Ok s →
  dict_get "email" kw = Some (email s) ∧
  dict_get "joined_date" kw = Some (joined_date s) ∧
  dict_get "status" kw = Some (status s) ∧
  dict_get "verification_token" kw = Some (verification_token s) ∧
  dict_get "verified" kw = Some (verified s) ∧
  dict_get "last_updated" kw = Some (last_updated s) ∧
  dict_get "metadata" kw = Some (metadata s).
Proof.
  unfold Subscriber_init. destruct (forallb _ _); [|done].
  destruct (dict_get "email" kw); [|done].
  destruct (dict_get "joined_date" kw); [|done].
  destruct (dict_get "status" kw); [|done].
  destruct (dict_get "verification_token" kw); [|done].
  destruct (dict_get "verified" kw); [|done].
  destruct (dict_get "last_updated" kw); [|done].
  destruct (dict_get "metadata" kw); [|done].
  by intros [= <-].
Qed.

Lemma Subscriber_init_same_fields (kw : dict pyobj) (s : Subscriber) (k : string) :
  Subscriber_init (PyDict kw) = Ok s →
  report_field k (asdict s) = dict_get k kw.
Proof.
  intros Hinit.
  pose proof (Subscriber_init_gets kw s Hinit)
    as (H1 & H2 & H3 & H4 & H5 & H6 & H7).
  destruct (Subscriber_init_shaped _ _ Hinit) as (kw' & [= <-] & Hkeys).
  destruct (decide (k ∈ field_names)) as [Hk|Hk].
  - unfold field_names in Hk. rewrite !elem_of_cons, elem_of_nil in Hk.
    destruct Hk as [->|[->|[->|[->|[->|[->|[->|[]]]]]]]]; by symmetry.
  - assert (dict_get k kw = None) as ->.
    { apply eq_None_not_Some. intros Hsome. apply Hk, Hkeys.
      by apply dict_get_is_Some. }
    unfold field_names in Hk. rewrite !not_elem_of_cons in Hk.
    destruct Hk as (? & ? & ? & ? & ? & ? & ? & _).
    unfold report_field, asdict. cbn [dict_get].
    by rewrite !bool_decide_eq_false_2 by done.
Qed.

(** X11: the constructor call of [load_subscribers] undoes [asdict],
    and it does not depend on the order of the keys: whenever it
    builds a record from a JSON object, [asdict] of the record has the
    same value under every key as the object. *)
Theorem Subscriber_init_inverts_asdict (s : Subscriber) (kw : dict pyobj)
    (s' : Subscriber) :
  Subscriber_init (asdict s) = Ok s ∧
  (Subscriber_init (PyDict kw) = Ok s' →
   ∀ k, report_field k (asdict s') = dict_get k kw).
Proof.
  split; [apply Subscriber_init_asdict|].
  intros Hinit k. by apply Subscriber_init_same_fields.
Qed.

(** The relation between a record of the index and its value in the
    document. *)
Lemma result_map_shaped (items : dict pyobj) :
  Forall (λ item, record_shaped item.2) items →
  ∃ parsed,
    result_map parse_item items = Ok parsed ∧
    Forall2 (λ rec item,
               rec.1 = item.1 ∧
               ∀ k, report_field k (asdict rec.2) = report_field k item.2)
            parsed items.
Proof.
  induction 1 as [|[k v] items Hv _ (parsed & Hmap & Hrel)].
  - by exists [].
  - cbn [snd] in Hv. destruct (Subscriber_init_of_shaped v Hv) as [s Hs].
    exists ((k, s) :: parsed). cbn [result_map]. unfold parse_item at 1.
    cbn [fst snd]. rewrite Hs. cbn [and_then]. rewrite Hmap. cbn [and_then].
    split; [done|]. constructor; [|done]. cbn [fst snd]. split; [done|].
    intros k'. destruct Hv as (kw & -> & _).
    by apply Subscriber_init_same_fields.
Qed.

(** X12: from a readable backing file that holds a JSON object with
    distinct keys whose values all have the seven fields as keys,
    [load_subscribers] builds one record per entry, in the order of the
    file and under the same key, each field holding the value the file
    gives it, whatever its type; nothing is logged. *)
Theorem load_subscribers_reads (st : State) (f : File) (items : dict pyobj) :
  disk st !! storage_file st = Some f →
  can_read f = true →
  json_load (content f) = Some (PyDict items) →
  dict_wf items →
  Forall (λ item, record_shaped item.2) items →
  ∃ loaded,
    load_subscribers st =
      (tt, mkState (storage_file st) loaded (disk st) (trace st) (ticks st)) ∧
    Forall2 (λ rec item,
               rec.1 = item.1 ∧
               ∀ k, report_field k (asdict rec.2) = report_field k item.2)
            loaded items.
Proof.
  intros Hfile Hr Hjson Hwf Hshaped.
  destruct (result_map_shaped items Hshaped) as (parsed & Hmap & Hrel).
  exists parsed. split; [|done].
  apply (load_subscribers_ok st f (PyDict items)); [done..|].
  unfold parse_subscribers. rewrite Hmap. cbn [and_then].
  rewrite dict_comprehension_wf; [done|].
  unfold dict_wf, dict_keys in *.
  replace (parsed.*1) with (items.*1); [done|].
  clear -Hrel. induction Hrel as [|? ? ? ? [Hk _] _ IH]; [done|].
  rewrite !fmap_cons. by rewrite Hk, IH.
Qed.

(** ** Metadata *)

(** X13: a metadata argument that is false in the sense of Python (None,
    False, 0, the empty string, list or dict) is stored as the empty
    dict: the call does what the call with the empty dict does. *)
Theorem add_subscriber_falsy_metadata (st : State) (addr : string)
    (metadata : pyobj) :
  truthy metadata = false →
  add_subscriber addr metadata st = add_subscriber addr (PyDict []) st.
Proof.
  intros Hfalsy. unfold add_subscriber, py_or. by rewrite Hfalsy.
Qed.

(** ** The route of registration *)

(** X14: the handler of POST /subscribe raises, with an
    AttributeError, exactly when the body is no JSON object or its
    email entry is no string; it then leaves the state as it is, and
    the validator is not called.  In every other case it answers what
    [add_subscriber] answers for the stripped address (the stripped
    empty text when the body has no email entry) and the metadata entry
    (the empty dict when the body has none), and leaves the state that
    call leaves. *)
Theorem subscribe_raises (st : State) (body : pyobj) :
  let bad :=
    (∀ data, body ≠ PyDict data) ∨
    (∃ data v, body = PyDict data ∧ dict_get "email" data = Some v ∧
               ∀ e, v ≠ PyStr e) in
  (bad → subscribe body st = (Raise AttributeError, st)) ∧
  (∀ data e,
     body = PyDict data →
     dict_get "email" data = Some (PyStr e) ∨
     (dict_get "email" data = None ∧ e = "") →
     let call :=
       add_subscriber (strip e)
                      (default (PyDict []) (dict_get "metadata" data)) st in
     subscribe body st = (Ok call.1, call.2)) ∧
  (¬ bad →
   ∃ data e, body = PyDict data ∧
             (dict_get "email" data = Some (PyStr e) ∨
              (dict_get "email" data = None ∧ e = ""))).
Proof.
  intros bad. split_and!.
  - intros [Hbody|(data & v & -> & Hv & Hstr)].
    + destruct body; try done. by edestruct Hbody.
    + unfold subscribe, dict_get_default. rewrite Hv. cbn [default].
      destruct v; try done. by edestruct Hstr.
  - intros data e -> He call. subst call.
    unfold subscribe, dict_get_default, bind, ret.
    destruct He as [->|[-> ->]]; cbn [default]; unfold id;
      lazy beta iota zeta; by destruct (add_subscriber _ _ st).
  - intros Hgood.
    destruct body as [| | | | |data|]; try (destruct Hgood; by left).
    destruct (dict_get "email" data) as [v|] eqn:Hv.
    + destruct v as [| | |e| | |];
        try (destruct Hgood; right; eexists _, _; by split_and!).
      exists data, e. split; [done|by left].
    + exists data, "". split; [done|by right].
Qed.

Lemma add_subscriber_metadata_or (st : State) (addr : string)
    (metadata metadata' : pyobj) :
  py_or metadata (PyDict []) = py_or metadata' (PyDict []) →
  add_subscriber addr metadata st = add_subscriber addr metadata' st.
Proof. intros Hor. unfold add_subscriber. by rewrite Hor. Qed.

(** X15: the handler of POST /subscribe depends on the address only
    through what [str.strip] leaves of it, and on the metadata entry
    only through [metadata or {}]: two bodies whose addresses strip to
    the same text, and whose metadata entries are equal or both absent
    or false in the sense of Python, get the same answer and leave the
    same state. *)
Theorem subscribe_padding (st : State) (data data' : dict pyobj)
    (e e' : string) :
  dict_get "email" data = Some (PyStr e) →
  dict_get "email" data' = Some (PyStr e') →
  strip e' = strip e →
  py_or (dict_get_default "metadata" (PyDict []) data') (PyDict []) =
  py_or (dict_get_default "metadata" (PyDict []) data) (PyDict []) →
  subscribe (PyDict data') st = subscribe (PyDict data) st.
Proof.
  intros He He' Hstrip Hmeta.
  unfold subscribe, dict_get_default at 1 3. rewrite He, He'.
  cbn [default]. unfold id. lazy beta iota zeta.
  rewrite Hstrip. unfold bind.
  by rewrite (add_subscriber_metadata_or st _ _ _ Hmeta).
Qed.

(** ** Loading logs exactly the corrupt files *)

(** X16: with a backing file that exists, [load_subscribers] logs an
    error exactly when the file cannot be opened, is no JSON, is no
    JSON object or holds a value that is no record; it then logs that
    one error and empties the index, and otherwise it logs nothing.
    The disk and the clock are never touched. *)
Theorem load_subscribers_logs_iff (st : State) (f : File) :
  disk st !! storage_file st = Some f →
  let st' := (load_subscribers st).2 in
  disk st' = disk st ∧ ticks st' = ticks st ∧
  ((∃ e, corrupt f e) ↔ trace st' ≠ trace st) ∧
  (∀ e, corrupt f e →
        subscribers st' = [] ∧
        trace st' = trace st ++ [LoggedError "Error loading subscribers" e]) ∧
  ((¬ ∃ e, corrupt f e) → trace st' = trace st).
Proof.
  intros Hfile st'.
  destruct (and_then (and_then
              (if can_read f then Ok (content f) else Raise OSError)
              json_decode) parse_subscribers) as [loaded|e] eqn:Htry.
  - assert (Hnone : ∀ e, ¬ corrupt f e).
    { intros e He%corrupt_iff. congruence. }
    assert (Hload : load_subscribers st =
              (tt, mkState (storage_file st) loaded (disk st) (trace st)
                           (ticks st))).
    { revert Htry.
      unfold load_subscribers, bind, get_self, path_exists, read_file.
      lazy beta iota. rewrite Hfile.
      rewrite bool_decide_eq_true_2 by by eexists.
      lazy beta iota. rewrite Hfile.
      destruct (can_read f); intros Htry; lazy beta iota; by rewrite Htry. }
    unfold st'. rewrite Hload. cbn [snd disk ticks trace subscribers].
    split_and!; [done..| | |done].
    + split; [by intros [e He%Hnone]|done].
    + by intros e He%Hnone.
  - assert (Hcorrupt : corrupt f e) by by apply corrupt_iff.
    unfold st'. rewrite (load_subscribers_raise st f e) by done.
    cbn [snd disk ticks trace subscribers].
    split_and!; [done..| | |].
    + split; [|by exists e]. intros _ Heq.
      apply (f_equal length) in Heq. rewrite length_app in Heq.
      cbn [length] in Heq. lia.
    + intros e' He'%corrupt_iff. rewrite Htry in He'. by injection He' as <-.
    + intros Hnone. destruct Hnone. by exists e.
Qed.

(** ** Registration in the report *)

(** X17: a registration that answers 201 raises the total and the
    unverified count of the report of [get_subscriber_stats] by one and
    leaves the active count as it was. *)
Theorem add_subscriber_stats (st : State) (addr : string) (metadata : pyobj) :
  (add_subscriber addr metadata st).1.2 = 201 →
  let (before, _) := get_subscriber_stats st in
  let (after, _) :=
    get_subscriber_stats (add_subscriber addr metadata st).2 in
  ∃ n a u : Z,
    report_field "total" before = Some (PyInt n) ∧
    report_field "total" after = Some (PyInt (n + 1)) ∧
    report_field "active" before = Some (PyInt a) ∧
    report_field "active" after = Some (PyInt a) ∧
    report_field "unverified" before = Some (PyInt u) ∧
    report_field "unverified" after = Some (PyInt (u + 1)).
Proof.
  destruct (validate_email addr) as [norm|msg] eqn:Hvalid.
  - destruct (dict_contains (lower norm) (subscribers st)) eqn:Hkey.
    + by rewrite (add_subscriber_duplicate st addr norm).
    + rewrite (add_subscriber_new st addr norm) by done. cbn [fst snd].
      intros _. rewrite !get_subscriber_stats_eq.
      destruct (save_subscribers_frame
        (mkState (storage_file st)
           (subscribers st ++
              [(lower norm, new_subscriber norm metadata (ticks st))])
           (disk st) (trace st) (S (S (S (ticks st))))))
        as (_ & -> & _).
      cbn [subscribers].
      rewrite length_app, count_active_app, count_unverified_app.
      assert (count_active
                [(lower norm, new_subscriber norm metadata (ticks st))]
              = 0%nat) as -> by reflexivity.
      assert (count_unverified
                [(lower norm, new_subscriber norm metadata (ticks st))]
              = 1%nat) as -> by reflexivity.
      exists (Z.of_nat (length (subscribers st))),
             (Z.of_nat (count_active (subscribers st))),
             (Z.of_nat (count_unverified (subscribers st))).
      split_and!; try reflexivity; cbn; f_equal; f_equal; lia.
  - by rewrite (add_subscriber_invalid st addr msg).
Qed.

End Decoding.

(** * The further properties on the sample environment *)

Section MoreExamples.
#[local] Existing Instance Sample.env.

Lemma add_subscriber_save_refused_witness :
  validate_email "A@Example.com" = ValidatedEmail "A@example.com" ∧
  dict_contains (lower "A@example.com") (subscribers Cases.locked) = false ∧
  disk Cases.locked !! storage_file Cases.locked = Some Cases.read_only ∧
  can_write Cases.read_only = false ∧
  (add_subscriber "A@Example.com" PyNone Cases.locked).1.2 = 201 ∧
  dict_keys (subscribers (add_subscriber "A@Example.com" PyNone
                            Cases.locked).2) = ["a@example.com"] ∧
  disk (add_subscriber "A@Example.com" PyNone Cases.locked).2 =
    disk Cases.locked.
Proof.
  assert (Hvalid : validate_email "A@Example.com" =
                   ValidatedEmail "A@example.com") by reflexivity.
  assert (Hfresh : dict_contains (lower "A@example.com")
                     (subscribers Cases.locked) = false) by reflexivity.
  assert (Hfile : disk Cases.locked !! storage_file Cases.locked =
                  Some Cases.read_only) by reflexivity.
  assert (Hw : can_write Cases.read_only = false) by reflexivity.
  split_and!; [done..| | |].
  all: pose proof (add_subscriber_save_refused Cases.locked "A@Example.com"
                     "A@example.com" PyNone Cases.read_only
                     Hvalid Hfresh Hfile Hw) as Hrefused;
    destruct (add_subscriber "A@Example.com" PyNone Cases.locked)
      as [response st'];
    destruct Hrefused as (-> & Hsubs & Hdisk & _); cbn [fst snd].
  - reflexivity.
  - rewrite Hsubs. reflexivity.
  - exact Hdisk.
Defined.

Lemma restart_after_register_witness :
  dict_wf (subscribers Sample.started) ∧
  (∀ f, disk Sample.started !! storage_file Sample.started = Some f →
        can_write f = true ∧ can_read f = true) ∧
  (add_subscriber "A@Example.com" PyNone Sample.started).1.2 = 201 ∧
  os_write (length (trace Sample.started)) (storage_file Sample.started)
           (json_dump (index_document (subscribers Sample.registered))) =
    Written ∧
  json_load (json_dump (index_document (subscribers Sample.registered))) =
    Some (index_document (subscribers Sample.registered)) ∧
  subscribers (SubscriberManager_init Sample.EMAILS_FILE
                 (Cases.restarted_on Sample.registered)).2 =
  subscribers Sample.registered.
Proof.
  assert (Hwf : dict_wf (subscribers Sample.started)).
  { vm_compute. apply NoDup_nil_2. }
  assert (Hperm : ∀ f,
            disk Sample.started !! storage_file Sample.started = Some f →
            can_write f = true ∧ can_read f = true).
  { intros f Hf. vm_compute in Hf. discriminate Hf. }
  assert (Hcode : (add_subscriber "A@Example.com" PyNone
                     Sample.started).1.2 = 201) by reflexivity.
  assert (Hos :
    os_write (length (trace Sample.started)) (storage_file Sample.started)
             (json_dump (index_document (subscribers Sample.registered))) =
    Written) by reflexivity.
  assert (Hjson :
    json_load (json_dump (index_document (subscribers Sample.registered))) =
    Some (index_document (subscribers Sample.registered))).
  { vm_compute. reflexivity. }
  split_and!; [done..|].
  exact (restart_after_register Sample.started "A@Example.com" PyNone "" []
           Hwf Hperm Hcode Hos Hjson).
Defined.

Lemma restart_after_verify_witness :
  dict_wf (subscribers Sample.registered) ∧
  (∀ f, disk Sample.registered !! storage_file Sample.registered = Some f →
        can_write f = true ∧ can_read f = true) ∧
  (verify_subscriber Sample.token Sample.registered).1.2 = 200 ∧
  os_write (length (trace Sample.registered))
           (storage_file Sample.registered)
           (json_dump (index_document (subscribers Sample.activated))) =
    Written ∧
  json_load (json_dump (index_document (subscribers Sample.activated))) =
    Some (index_document (subscribers Sample.activated)) ∧
  subscribers (SubscriberManager_init Sample.EMAILS_FILE
                 (Cases.restarted_on Sample.activated)).2 =
  subscribers Sample.activated.
Proof.
  assert (Hwf : dict_wf (subscribers Sample.registered)).
  { vm_compute. apply NoDup_singleton. }
  assert (Hperm : ∀ f,
            disk Sample.registered !! storage_file Sample.registered
              = Some f →
            can_write f = true ∧ can_read f = true).
  { intros f Hf. vm_compute in Hf. injection Hf as <-. split; reflexivity. }
  assert (Hcode : (verify_subscriber Sample.token
                     Sample.registered).1.2 = 200) by reflexivity.
  assert (Hos :
    os_write (length (trace Sample.registered))
             (storage_file Sample.registered)
             (json_dump (index_document (subscribers Sample.activated))) =
    Written) by reflexivity.
  assert (Hjson :
    json_load (json_dump (index_document (subscribers Sample.activated))) =
    Some (index_document (subscribers Sample.activated))).
  { vm_compute. reflexivity. }
  split_and!; [done..|].
  exact (restart_after_verify Sample.registered Sample.token "" []
           Hwf Hperm Hcode Hos Hjson).
Defined.

Lemma duplicate_after_restart_witness :
  dict_wf (subscribers Sample.started) ∧
  (∀ f, disk Sample.started !! storage_file Sample.started = Some f →
        can_write f = true ∧ can_read f = true) ∧
  validate_email "A@Example.com" = ValidatedEmail "A@example.com" ∧
  validate_email "a@example.com" = ValidatedEmail "a@example.com" ∧
  lower "a@example.com" = lower "A@example.com" ∧
  (add_subscriber "A@Example.com" PyNone Sample.started).1.2 = 201 ∧
  os_write (length (trace Sample.started)) (storage_file Sample.started)
           (json_dump (index_document (subscribers Sample.registered))) =
    Written ∧
  json_load (json_dump (index_document (subscribers Sample.registered))) =
    Some (index_document (subscribers Sample.registered)) ∧
  (add_subscriber "a@example.com" PyNone
     (SubscriberManager_init Sample.EMAILS_FILE
        (Cases.restarted_on Sample.registered)).2).1.2 =
  409.
Proof.
  assert (Hwf : dict_wf (subscribers Sample.started)).
  { vm_compute. apply NoDup_nil_2. }
  assert (Hperm : ∀ f,
            disk Sample.started !! storage_file Sample.started = Some f →
            can_write f = true ∧ can_read f = true).
  { intros f Hf. vm_compute in Hf. discriminate Hf. }
  assert (Hvalid1 : validate_email "A@Example.com" =
                    ValidatedEmail "A@example.com") by reflexivity.
  assert (Hvalid2 : validate_email "a@example.com" =
                    ValidatedEmail "a@example.com") by reflexivity.
  assert (Hsame : lower "a@example.com" = lower "A@example.com")
    by reflexivity.
  assert (Hcode : (add_subscriber "A@Example.com" PyNone
                     Sample.started).1.2 = 201) by reflexivity.
  assert (Hos :
    os_write (length (trace Sample.started)) (storage_file Sample.started)
             (json_dump (index_document (subscribers Sample.registered))) =
    Written) by reflexivity.
  assert (Hjson :
    json_load (json_dump (index_document (subscribers Sample.registered))) =
    Some (index_document (subscribers Sample.registered))).
  { vm_compute. reflexivity. }
  split_and!; [done..|].
  pose proof (duplicate_after_restart Sample.started "A@Example.com"
                "A@example.com" "a@example.com" "a@example.com" PyNone PyNone
                "" [] Hwf Hperm Hvalid1 Hvalid2 Hsame Hcode Hos Hjson)
    as Hdup.
  cbv zeta in Hdup.
  change (mkState "" [] (disk ?x) (trace ?x) (ticks ?x))
    with (Cases.restarted_on x) in Hdup.
  change (add_subscriber "A@Example.com" PyNone Sample.started).2
    with Sample.registered in Hdup.
  change (storage_file Sample.started) with Sample.EMAILS_FILE in Hdup.
  by rewrite Hdup.
Defined.

Lemma active_is_stable_witness :
  subscribers Sample.activated !! 0%nat =
    Some ("a@example.com",
          verified_at (Sample.clock 3) Sample.pending_record) ∧
  status (verified_at (Sample.clock 3) Sample.pending_record) =
    PyStr "active" ∧
  verified (verified_at (Sample.clock 3) Sample.pending_record) =
    PyBool true ∧
  subscribers (add_subscriber "b@example.com" PyNone Sample.activated).2
    !! 0%nat =
    Some ("a@example.com",
          verified_at (Sample.clock 3) Sample.pending_record).
Proof.
  assert (Hn : subscribers Sample.activated !! 0%nat =
               Some ("a@example.com",
                     verified_at (Sample.clock 3) Sample.pending_record))
    by reflexivity.
  split_and!; [done..|].
  exact (proj1 (active_is_stable Sample.activated 0 _ _ Hn eq_refl eq_refl)
           "b@example.com" PyNone).
Defined.

Lemma reachable_keys_witness :
  reachable Sample.activated ∧
  ("a@example.com", verified_at (Sample.clock 3) Sample.pending_record)
    ∈ subscribers Sample.activated ∧
  email (verified_at (Sample.clock 3) Sample.pending_record) =
    PyStr "a@example.com" ∧
  ∃ addr norm, validate_email addr = ValidatedEmail norm ∧
               "a@example.com" = lower norm.
Proof.
  assert (Hreach : reachable Sample.activated).
  { apply reachable_verify, reachable_add, reachable_empty. reflexivity. }
  assert (Hin : ("a@example.com",
                 verified_at (Sample.clock 3) Sample.pending_record)
                ∈ subscribers Sample.activated).
  { vm_compute. apply list_elem_of_here. }
  split; [exact Hreach|]. split; [exact Hin|].
  destruct (reachable_keys Sample.activated _ _ Hreach Hin) as (He & Hl & _).
  split; [exact He|exact Hl].
Defined.

Lemma reachable_stats_balance_witness :
  reachable Sample.activated ∧
  ∃ (a u : Z) (t : string),
    (get_subscriber_stats Sample.activated).1 =
      PyDict [("total", PyInt (a + u)); ("active", PyInt a);
              ("unverified", PyInt u); ("last_updated", PyStr t)].
Proof.
  assert (Hreach : reachable Sample.activated).
  { apply reachable_verify, reachable_add, reachable_empty. reflexivity. }
  split; [exact Hreach|].
  exact (reachable_stats_balance Sample.activated Hreach).
Defined.

Lemma Subscriber_init_inverts_asdict_witness :
  Subscriber_init (PyDict [("metadata", PyDict []); ("verified", PyNone);
                           ("email", PyStr "x"); ("status", PyStr "pending");
                           ("joined_date", PyStr "d");
                           ("last_updated", PyStr "d");
                           ("verification_token", PyStr "t")]) =
    Ok (mkSubscriber (PyStr "x") (PyStr "d") (PyStr "pending") (PyStr "t")
                     PyNone (PyStr "d") (PyDict [])) ∧
  report_field "verified"
    (asdict (mkSubscriber (PyStr "x") (PyStr "d") (PyStr "pending")
                          (PyStr "t") PyNone (PyStr "d") (PyDict []))) =
  Some PyNone.
Proof.
  assert (Hinit :
    Subscriber_init (PyDict [("metadata", PyDict []); ("verified", PyNone);
                             ("email", PyStr "x"); ("status", PyStr "pending");
                             ("joined_date", PyStr "d");
                             ("last_updated", PyStr "d");
                             ("verification_token", PyStr "t")]) =
    Ok (mkSubscriber (PyStr "x") (PyStr "d") (PyStr "pending") (PyStr "t")
                     PyNone (PyStr "d") (PyDict []))) by reflexivity.
  split; [exact Hinit|].
  exact (proj2 (Subscriber_init_inverts_asdict
                  (mkSubscriber PyNone PyNone PyNone PyNone PyNone PyNone
                                PyNone) _ _) Hinit "verified").
Defined.

Lemma load_subscribers_reads_witness :
  disk Cases.hand_written !! storage_file Cases.hand_written =
    Some Cases.by_hand ∧
  can_read Cases.by_hand = true ∧
  json_load (content Cases.by_hand) = Some (PyDict Cases.by_hand_items) ∧
  dict_wf Cases.by_hand_items ∧
  Forall (λ item, record_shaped item.2) Cases.by_hand_items ∧
  trace (load_subscribers Cases.hand_written).2 = [] ∧
  length (subscribers (load_subscribers Cases.hand_written).2) = 1%nat.
Proof.
  assert (Hfile : disk Cases.hand_written !! storage_file Cases.hand_written
                  = Some Cases.by_hand) by reflexivity.
  assert (Hr : can_read Cases.by_hand = true) by reflexivity.
  assert (Hjson : json_load (content Cases.by_hand) =
                  Some (PyDict Cases.by_hand_items)).
  { vm_compute. reflexivity. }
  assert (Hwf : dict_wf Cases.by_hand_items).
  { vm_compute. apply NoDup_singleton. }
  assert (Hshaped : Forall (λ item, record_shaped item.2)
                           Cases.by_hand_items).
  { constructor; [|constructor]. eexists. split; [reflexivity|].
    intros k. unfold dict_keys, field_names. cbn [fmap list_fmap fst].
    rewrite !elem_of_cons, !elem_of_nil. tauto. }
  split_and!; [done..| |].
  all: destruct (load_subscribers_reads Cases.hand_written Cases.by_hand
                   Cases.by_hand_items Hfile Hr Hjson Hwf Hshaped)
         as (loaded & -> & Hrel); cbn [snd trace subscribers].
  - reflexivity.
  - by rewrite (Forall2_length _ _ _ Hrel).
Defined.

Lemma add_subscriber_falsy_metadata_witness :
  truthy (PyInt 0) = false ∧
  add_subscriber "A@Example.com" (PyInt 0) Sample.started =
  add_subscriber "A@Example.com" (PyDict []) Sample.started.
Proof.
  assert (Hfalsy : truthy (PyInt 0) = false) by reflexivity.
  split; [exact Hfalsy|].
  exact (add_subscriber_falsy_metadata Sample.started "A@Example.com"
           (PyInt 0) Hfalsy).
Defined.

Lemma subscribe_raises_witness :
  (∀ data, PyList [] ≠ PyDict data) ∧
  dict_get "email" Cases.padded_entries =
    Some (PyStr "  A@Example.com ") ∧
  subscribe (PyList []) Sample.started =
    (Raise AttributeError, Sample.started) ∧
  subscribe (PyDict Cases.padded_entries) Sample.started =
    (Ok (add_subscriber "A@Example.com" PyNone Sample.started).1,
     (add_subscriber "A@Example.com" PyNone Sample.started).2).
Proof.
  assert (Hbody : ∀ data, PyList [] ≠ PyDict data)
    by (intros data; discriminate).
  assert (He : dict_get "email" Cases.padded_entries =
               Some (PyStr "  A@Example.com ")) by reflexivity.
  split; [exact Hbody|]. split; [exact He|]. split.
  - exact (proj1 (subscribe_raises Sample.started (PyList []))
             (or_introl Hbody)).
  - exact (proj1 (proj2 (subscribe_raises Sample.started
                           (PyDict Cases.padded_entries)))
             Cases.padded_entries "  A@Example.com " eq_refl (or_introl He)).
Defined.

Lemma subscribe_padding_witness :
  dict_get "email" Cases.plain_entries = Some (PyStr "A@Example.com") ∧
  dict_get "email" Cases.padded_entries =
    Some (PyStr "  A@Example.com ") ∧
  strip "  A@Example.com " = strip "A@Example.com" ∧
  py_or (dict_get_default "metadata" (PyDict []) Cases.padded_entries)
        (PyDict []) =
  py_or (dict_get_default "metadata" (PyDict []) Cases.plain_entries)
        (PyDict []) ∧
  subscribe (PyDict Cases.padded_entries) Sample.started =
  subscribe (PyDict Cases.plain_entries) Sample.started.
Proof.
  assert (He : dict_get "email" Cases.plain_entries =
               Some (PyStr "A@Example.com")) by reflexivity.
  assert (He' : dict_get "email" Cases.padded_entries =
                Some (PyStr "  A@Example.com ")) by reflexivity.
  assert (Hstrip : strip "  A@Example.com " = strip "A@Example.com")
    by reflexivity.
  assert (Hmeta :
    py_or (dict_get_default "metadata" (PyDict []) Cases.padded_entries)
          (PyDict []) =
    py_or (dict_get_default "metadata" (PyDict []) Cases.plain_entries)
          (PyDict [])) by reflexivity.
  split_and!; [done..|].
  exact (subscribe_padding Sample.started Cases.plain_entries
           Cases.padded_entries "A@Example.com" "  A@Example.com "
           He He' Hstrip Hmeta).
Defined.

Lemma load_subscribers_logs_iff_witness :
  disk Cases.hand_written !! storage_file Cases.hand_written =
    Some Cases.by_hand ∧
  trace (load_subscribers Cases.hand_written).2 = trace Cases.hand_written ∧
  ¬ ∃ e, corrupt Cases.by_hand e.
Proof.
  assert (Hfile : disk Cases.hand_written !! storage_file Cases.hand_written
                  = Some Cases.by_hand) by reflexivity.
  split; [exact Hfile|].
  destruct (load_subscribers_logs_iff Cases.hand_written Cases.by_hand Hfile)
    as (_ & _ & Hiff & _ & _).
  assert (Htrace : trace (load_subscribers Cases.hand_written).2 =
                   trace Cases.hand_written) by (vm_compute; reflexivity).
  split; [exact Htrace|].
  intros Hcorrupt. by apply Hiff in Hcorrupt.
Defined.

Lemma add_subscriber_stats_witness :
  (add_subscriber "A@Example.com" PyNone Sample.started).1.2 = 201 ∧
  report_field "total" (get_subscriber_stats Sample.started).1 =
    Some (PyInt 0) ∧
  report_field "total" (get_subscriber_stats Sample.registered).1 =
    Some (PyInt 1) ∧
  ∃ n : Z,
    report_field "total" (get_subscriber_stats Sample.started).1 =
      Some (PyInt n) ∧
    report_field "total"
      (get_subscriber_stats
         (add_subscriber "A@Example.com" PyNone Sample.started).2).1 =
      Some (PyInt (n + 1)).
Proof.
  assert (Hcode : (add_subscriber "A@Example.com" PyNone
                     Sample.started).1.2 = 201) by reflexivity.
  split; [exact Hcode|]. split; [reflexivity|]. split; [reflexivity|].
  pose proof (add_subscriber_stats Sample.started "A@Example.com" PyNone
                Hcode) as Hstats.
  destruct (get_subscriber_stats Sample.started) as [before st0].
  destruct (get_subscriber_stats
              (add_subscriber "A@Example.com" PyNone Sample.started).2)
    as [after st1].
  destruct Hstats as (n & a & u & Hn & Hn' & _). cbn [fst].
  exists n. split; [exact Hn|exact Hn'].
Defined.

End MoreExamples.
